(** * torchgeometry.core.affine: rotation, translation and scaling of image tensors

    A shallow embedding of [torchgeometry/core/affine.py].  Tensors are a shape
    with a row-major buffer; Python values that reach the type checks are a small
    tagged union; exceptions are values; the two collaborators imported from
    [torchgeometry.core] ([get_rotation_matrix2d], [warp_affine]) are parameters
    of the development and every call to them is recorded in a trace.

    Scalars are rationals.  The module never branches on an entry of a tensor,
    only on types and shapes; where it converts a number to a dtype, the
    conversion rounds as the format does.  Infinities and NaN have no place in
    a buffer of rationals: see [to_dtype]. *)

From Stdlib Require Import String ZArith QArith Qround Qreduction Qabs Lia Bool Arith List.
Import ListNotations.
Open Scope string_scope.
Open Scope nat_scope.
Open Scope list_scope.

(** ** Data model *)

Inductive dtype : Type := float16 | float32 | float64.

Inductive device : Type := cpu | cuda (index : nat).

Record Tensor : Type := mkTensor {
  shape : list nat;
  data : list Q;
  t_dtype : dtype;
  t_device : device
}.

(** Number of entries a shape announces. *)
Definition numel (sh : list nat) : nat := fold_right Nat.mul 1 sh.

Definition ndimension (t : Tensor) : nat := length (shape t).

(** The buffer has as many entries as the shape says. *)
Definition well_formed (t : Tensor) : Prop := length (data t) = numel (shape t).

(** Python values that can be passed where the annotations ask for a tensor. *)
Inductive pyobj : Type :=
| PyNone
| PyInt (z : Z)
| PyFloat (q : Q)
| PyStr (s : string)
| PyTensor (t : Tensor).

Inductive pytype : Type := NoneType | int_t | float_t | str_t | Tensor_t.

Definition type (x : pyobj) : pytype :=
  match x with
  | PyNone => NoneType
  | PyInt _ => int_t
  | PyFloat _ => float_t
  | PyStr _ => str_t
  | PyTensor _ => Tensor_t
  end.

Definition is_tensor (x : pyobj) : bool :=
  match x with PyTensor _ => true | _ => false end.

Definition is_None (x : pyobj) : bool :=
  match x with PyNone => true | _ => false end.

(** ** Exceptions *)

Inductive exn_kind : Type :=
  TypeError | ValueError | IndexError | AttributeError | RuntimeError.

(** What a message template is formatted with. *)
Inductive fmt_arg : Type :=
| FNothing
| FType (ty : pytype)
| FShape (sh : list nat)
| FCount (n : nat)
| FAttr (ty : pytype) (attr : string).

(** [Raise k msg a] is [raise k(msg.format(a))]; [Delegated e] is a failure of
    one of the two collaborators, passed on untouched. *)
Inductive exn : Type :=
| Raise (k : exn_kind) (msg : string) (arg : fmt_arg)
| Delegated (e : string).

Definition result (A : Type) : Type := (exn + A)%type.

Definition ok {A} (a : A) : result A := inr a.
Definition throw {A} (e : exn) : result A := inl e.

Definition rbind {A B} (m : result A) (f : A -> result B) : result B :=
  match m with
  | inl e => inl e
  | inr a => f a
  end.

(** ** Buffers *)

(** [blocks n k l]: the first [n] consecutive runs of [k] entries of [l]. *)
Fixpoint blocks {A} (n k : nat) (l : list A) : list (list A) :=
  match n with
  | 0 => []
  | S n' => firstn k l :: blocks n' k (skipn k l)
  end.

(** The last [n] entries, Python's [l[-n:]]. *)
Definition lastn {A} (n : nat) (l : list A) : list A :=
  skipn (length l - n) l.

(** ** Floating-point formats *)

(** Bits of the significand, the hidden bit included. *)
Definition precision (dt : dtype) : Z :=
  match dt with float16 => 11 | float32 => 24 | float64 => 53 end%Z.

(** Exponent of the smallest normal number. *)
Definition emin (dt : dtype) : Z :=
  match dt with float16 => -14 | float32 => -126 | float64 => -1022 end%Z.

(** Exponent of the largest finite number. *)
Definition emax (dt : dtype) : Z :=
  match dt with float16 => 15 | float32 => 127 | float64 => 1023 end%Z.

(** [q * 2^z]. *)
Definition scale2 (q : Q) (z : Z) : Q :=
  if (0 <=? z)%Z
  then Qmake (Qnum q * 2 ^ z) (Qden q)
  else Qmake (Qnum q) (Qden q * Z.to_pos (2 ^ (- z))).

(** The nearest integer, the even one of two that are equally near. *)
Definition round_half_even (q : Q) : Z :=
  let n := Qnum q in
  let d := Zpos (Qden q) in
  let f := (n / d)%Z in
  let r2 := (2 * (n mod d))%Z in
  if (r2 <? d)%Z then f
  else if (d <? r2)%Z then (f + 1)%Z
  else if Z.even f then f else (f + 1)%Z.

(** The exponent [e] with [2^e <= |q| < 2^(e+1)], for [q] other than zero. *)
Definition floor_log2 (q : Q) : Z :=
  let e0 := (Z.log2 (Z.abs (Qnum q)) - Z.log2 (Zpos (Qden q)))%Z in
  if Qle_bool (scale2 1 e0) (Qabs q) then e0 else (e0 - 1)%Z.

(** Conversion of a number to a dtype: the nearest number of the format, ties
    to even, subnormal numbers included; the result is in lowest terms.
    Beyond the largest finite number torch stores an infinity, which a buffer
    of rationals cannot hold: there this function keeps rounding to the
    precision of the format, and [finite_in] tells the two cases apart. *)
Definition to_dtype (dt : dtype) (q : Q) : Q :=
  if (Qnum q =? 0)%Z then 0%Q
  else
    let e := Z.max (floor_log2 q) (emin dt) in
    let s := (e - (precision dt - 1))%Z in
    Qred (scale2 (inject_Z (round_half_even (scale2 q (- s)))) s).

(** The largest finite number of the format. *)
Definition max_finite (dt : dtype) : Q :=
  scale2 (inject_Z (2 ^ precision dt - 1)) (emax dt - (precision dt - 1)).

(** The conversion of [q] to the dtype is finite. *)
Definition finite_in (dt : dtype) (q : Q) : bool :=
  Qle_bool (Qabs (to_dtype dt q)) (max_finite dt).

(** Python's [float(z)] of an integer: the nearest double. *)
Definition python_float (z : Z) : Q := to_dtype float64 (inject_Z z).

(** ** The torch operations the module calls *)

(** [torch.tensor([...], device=, dtype=)] for a flat list of Python floats:
    every number is converted to the dtype. *)
Definition torch_tensor (xs : list Q) (dev : device) (dt : dtype) : Tensor :=
  mkTensor [length xs] (map (to_dtype dt) xs) dt dev.

Definition eye_data (n : nat) : list Q :=
  flat_map (fun i => map (fun j => if i =? j then 1%Q else 0%Q) (seq 0 n)) (seq 0 n).

(** [torch.eye(n, device=, dtype=)]. *)
Definition torch_eye (n : nat) (dev : device) (dt : dtype) : Tensor :=
  mkTensor [n; n] (eye_data n) dt dev.

Definition ones_like (t : Tensor) : Tensor :=
  mkTensor (shape t) (repeat 1%Q (numel (shape t))) (t_dtype t) (t_device t).

Definition zeros_like (t : Tensor) : Tensor :=
  mkTensor (shape t) (repeat 0%Q (numel (shape t))) (t_dtype t) (t_device t).

(** [torch.unsqueeze(t, dim=0)]. *)
Definition unsqueeze0 (t : Tensor) : Tensor :=
  mkTensor (1 :: shape t) (data t) (t_dtype t) (t_device t).

(** [torch.squeeze(t, dim=0)]: drops the leading dimension when it has size 1. *)
Definition squeeze0 (t : Tensor) : Tensor :=
  match shape t with
  | 1 :: sh => mkTensor sh (data t) (t_dtype t) (t_device t)
  | _ => t
  end.

(** [t.shape[0]]. *)
Definition shape0 (t : Tensor) : result nat :=
  match shape t with
  | [] => throw (Raise IndexError "tuple index out of range" FNothing)
  | n :: _ => ok n
  end.

(** Size of one dimension after [expand]: [-1] keeps the size, an equal size
    keeps it, a size-1 dimension stretches, anything else is refused. *)
Definition expand_dim (s : nat) (z : Z) : option nat :=
  if (z =? -1)%Z then Some s
  else if (z <? 0)%Z then None
  else if Z.to_nat z =? s then Some s
  else if s =? 1 then Some (Z.to_nat z)
  else None.

(** Shapes of equal rank, dimension by dimension. *)
Fixpoint expand_shape (src : list nat) (sizes : list Z) : option (list nat) :=
  match src, sizes with
  | [], [] => Some []
  | s :: src', z :: sizes' =>
      match expand_dim s z, expand_shape src' sizes' with
      | Some d, Some ds => Some (d :: ds)
      | _, _ => None
      end
  | _, _ => None
  end.

(** The buffer of a tensor of shape [src] read at shape [tgt]: a dimension kept
    is walked block by block, a stretched one repeats its only block. *)
Fixpoint expand_data (src tgt : list nat) (d : list Q) : list Q :=
  match src, tgt with
  | s :: src', t :: tgt' =>
      if s =? t
      then concat (map (expand_data src' tgt') (blocks s (numel src') d))
      else concat (repeat (expand_data src' tgt' (firstn (numel src') d)) t)
  | _, _ => d
  end.

Definition expand_msg : string :=
  "The expanded size of the tensor must match the existing size at non-singleton dimension".

(** [t.expand(sizes...)]: new leading dimensions need an explicit size. *)
Definition expand (t : Tensor) (sizes : list Z) : result Tensor :=
  let extra := length sizes - ndimension t in
  if length sizes <? ndimension t
  then throw (Raise RuntimeError expand_msg (FShape (shape t)))
  else if existsb (fun z => (z <? 0)%Z) (firstn extra sizes)
  then throw (Raise RuntimeError expand_msg (FShape (shape t)))
  else
    let padded := repeat 1 extra ++ shape t in
    match expand_shape padded sizes with
    | None => throw (Raise RuntimeError expand_msg (FShape (shape t)))
    | Some tgt =>
        ok (mkTensor tgt (expand_data padded tgt (data t)) (t_dtype t) (t_device t))
    end.

(** Tiling of a buffer: [reps] copies along each dimension. *)
Fixpoint repeat_data (sh reps : list nat) (d : list Q) : list Q :=
  match sh, reps with
  | s :: sh', r :: reps' =>
      concat (repeat (concat (map (repeat_data sh' reps') (blocks s (numel sh') d))) r)
  | _, _ => d
  end.

(** [t.repeat(reps...)]. *)
Definition tensor_repeat (t : Tensor) (reps : list nat) : result Tensor :=
  if length reps <? ndimension t
  then throw (Raise RuntimeError
                "Number of dimensions of repeat dims can not be smaller than number of dimensions of tensor"
                (FShape (shape t)))
  else
    let padded := repeat 1 (length reps - ndimension t) ++ shape t in
    ok (mkTensor (map (fun p => fst p * snd p) (combine reps padded))
                 (repeat_data padded reps (data t)) (t_dtype t) (t_device t)).

(** [torch.chunk(t, chunks=2, dim=-1)]: the pieces have [ceil(n/2)] columns,
    the last one what is left; a single column gives a single piece. *)
Definition chunk2 (t : Tensor) : result (list Tensor) :=
  match rev (shape t) with
  | [] => throw (Raise RuntimeError "chunk expects at least a 1-dimensional tensor" FNothing)
  | n :: rlead =>
      let lead := rev rlead in
      let k := (n + 1) / 2 in
      let rows := blocks (numel lead) n (data t) in
      let piece (w : nat) (cut : list Q -> list Q) :=
        mkTensor (lead ++ [w]) (concat (map cut rows)) (t_dtype t) (t_device t) in
      if n =? 1 then ok [piece 1 (firstn 1)]
      else ok [piece k (firstn k); piece (n - k) (skipn k)]
  end.

(** [a, b = xs]. *)
Definition unpack2 {A} (xs : list A) : result (A * A) :=
  match xs with
  | [a; b] => ok (a, b)
  | _ =>
      if length xs <? 2
      then throw (Raise ValueError "not enough values to unpack (expected 2, got {})"
                        (FCount (length xs)))
      else throw (Raise ValueError "too many values to unpack (expected 2)" FNothing)
  end.

(** Adds [v] to the entry at position [i] of a row-major block. *)
Fixpoint add_at (i : nat) (v : Q) (l : list Q) : list Q :=
  match l, i with
  | [], _ => []
  | x :: l', 0 => (x + v)%Q :: l'
  | x :: l', S i' => x :: add_at i' v l'
  end.

(** [m[..., i, j:j+1] += v] on a batch of matrices [m]: the view has shape
    [(B, 1)] and [v] has to broadcast to it. *)
Definition iadd_cell (i j : nat) (m v : Tensor) : result Tensor :=
  match shape m with
  | [b; r; c] =>
      match expand v [Z.of_nat b; 1%Z] with
      | inl e => throw e
      | inr v' =>
          ok (mkTensor (shape m)
                (concat (map (fun p => add_at (i * c + j) (snd p) (fst p))
                             (combine (blocks b (r * c) (data m)) (data v'))))
                (t_dtype m) (t_device m))
      end
  | _ => throw (Raise IndexError "too many indices for tensor" (FShape (shape m)))
  end.

(** [m[..., :2, :3]]: the first two rows and three columns of every matrix. *)
Definition slice_2x3 (m : Tensor) : result Tensor :=
  match rev (shape m) with
  | c :: r :: rlead =>
      let lead := rev rlead in
      ok (mkTensor (lead ++ [Nat.min 2 r; Nat.min 3 c])
            (concat (map (fun mat => concat (map (firstn 3) (blocks (Nat.min 2 r) c mat)))
                         (blocks (numel lead) (r * c) (data m))))
            (t_dtype m) (t_device m))
  | _ => throw (Raise IndexError "too many indices for tensor" (FShape (shape m)))
  end.

(** ** Utilities to compute affine matrices *)

(** [_compute_tensor_center]: the center of the tensor plane. *)
Definition _compute_tensor_center (tensor : Tensor) : result Tensor :=
  rbind (unpack2 (lastn 2 (shape tensor))) (fun hw =>
    let '(height, width) := hw in
    let center_x : Q := (python_float (Z.of_nat width - 1) / 2)%Q in
    let center_y : Q := (python_float (Z.of_nat height - 1) / 2)%Q in
    ok (torch_tensor [center_x; center_y] (t_device tensor) (t_dtype tensor))).

(** [_compute_translation_matrix]: the affine matrix of a translation. *)
Definition _compute_translation_matrix (translation : Tensor) : result Tensor :=
  let matrix := torch_eye 3 (t_device translation) (t_dtype translation) in
  rbind (shape0 translation) (fun b =>
  rbind (tensor_repeat matrix [b; 1; 1]) (fun matrix =>
  rbind (chunk2 translation) (fun pieces =>
  rbind (unpack2 pieces) (fun dxdy =>
    let '(dx, dy) := dxdy in
    rbind (iadd_cell 0 2 matrix dx) (fun matrix =>
    rbind (iadd_cell 1 2 matrix dy) (fun matrix =>
    ok matrix)))))).

(** ** Calls to the collaborators *)

(** One entry per call that leaves the module, with the arguments it carried. *)
Inductive event : Type :=
| CallRotationMatrix (center angle scale : Tensor)
| CallWarp (src matrix : Tensor) (dsize : list nat).

(** A computation of the module: the calls made so far and how it ended. *)
Definition py (A : Type) : Type := (list event * result A)%type.

Definition ret {A} (a : A) : py A := ([], inr a).

Definition raise {A} (e : exn) : py A := ([], inl e).

Definition lift {A} (r : result A) : py A := ([], r).

Definition bind {A B} (m : py A) (f : A -> py B) : py B :=
  match snd m with
  | inl e => (fst m, inl e)
  | inr a => (fst m ++ fst (f a), snd (f a))
  end.

Notation "x <- m ;; k" := (bind m (fun x => k))
  (at level 61, m at next level, right associativity).

Definition calls {A} (m : py A) : list event := fst m.
Definition outcome {A} (m : py A) : result A := snd m.

(** Use of a Python value as the receiver of a tensor attribute. *)
Definition tensor_attr (x : pyobj) (attr : string) : result Tensor :=
  match x with
  | PyTensor t => ok t
  | _ => throw (Raise AttributeError "'{}' object has no attribute '{}'" (FAttr (type x) attr))
  end.

Definition msg_item : string :=
  "only one element tensors can be converted to Python scalars".

(** [t.item()]. *)
Definition item (t : Tensor) : result pyobj :=
  if numel (shape t) =? 1
  then ok (PyFloat (hd 0%Q (data t)))
  else throw (Raise ValueError msg_item FNothing).

Definition msg_tensor : string := "Input tensor type is not a torch.Tensor. Got {}".
Definition msg_angle : string := "Input angle type is not a torch.Tensor. Got {}".
Definition msg_center : string := "Input center type is not a torch.Tensor. Got {}".
Definition msg_translation : string := "Input translation type is not a torch.Tensor. Got {}".
Definition msg_scale_factor : string := "Input scale_factor type is not a torch.Tensor. Got {}".
Definition msg_shape : string :=
  "Invalid tensor shape, we expect CxHxW or BxCxHxW. Got: {}".

(** [n not in (3, 4,)]. *)
Definition not_in_3_4 (n : nat) : bool := negb ((n =? 3) || (n =? 4)).

Section Affine.

(** The two collaborators from [torchgeometry.core], which are not part of
    this file: they are functions of their arguments, and fail with a message
    of their own. *)
Variable get_rotation_matrix2d : Tensor -> Tensor -> Tensor -> string + Tensor.
Variable warp_affine : Tensor -> Tensor -> list nat -> string + Tensor.

(** Python's [str], used by the text representations. *)
Variable str : pyobj -> string.

Definition delegated {A} (r : string + A) : result A :=
  match r with
  | inl e => inl (Delegated e)
  | inr a => inr a
  end.

Definition call_get_rotation_matrix2d (center angle scale : Tensor) : py Tensor :=
  ([CallRotationMatrix center angle scale],
   delegated (get_rotation_matrix2d center angle scale)).

Definition call_warp_affine (src matrix : Tensor) (dsize : list nat) : py Tensor :=
  ([CallWarp src matrix dsize], delegated (warp_affine src matrix dsize)).

(** [_compute_rotation_matrix]: a pure affine rotation matrix. *)
Definition _compute_rotation_matrix (angle center : Tensor) : py Tensor :=
  let scale := ones_like angle in
  matrix <- call_get_rotation_matrix2d center angle scale ;;
  ret matrix.

(** [_compute_scaling_matrix]: the affine matrix of a scaling. *)
Definition _compute_scaling_matrix (scale center : Tensor) : py Tensor :=
  let angle := zeros_like scale in
  matrix <- call_get_rotation_matrix2d center angle scale ;;
  ret matrix.

(** [affine]: apply an affine transformation to the image. *)
Definition affine (tensor matrix : Tensor) : py Tensor :=
  let is_unbatched := ndimension tensor =? 3 in
  let tensor := if is_unbatched then unsqueeze0 tensor else tensor in
  b <- lift (shape0 tensor) ;;
  matrix <- lift (expand matrix [Z.of_nat b; (-1)%Z; (-1)%Z]) ;;
  warped <- call_warp_affine tensor matrix (lastn 2 (shape tensor)) ;;
  let warped := if is_unbatched then squeeze0 warped else warped in
  ret warped.

(** [rotate]: rotate the image anti-clockwise about the centre. *)
Definition rotate (tensor angle center : pyobj) : py Tensor :=
  if negb (is_tensor tensor)
  then raise (Raise TypeError msg_tensor (FType (type tensor)))
  else if negb (is_tensor angle)
  then raise (Raise TypeError msg_angle (FType (type angle)))
  else if negb (is_None center) && negb (is_tensor angle)
  then raise (Raise TypeError msg_center (FType (type center)))
  else
    t <- lift (tensor_attr tensor "shape") ;;
    if not_in_3_4 (length (shape t))
    then raise (Raise ValueError msg_shape (FShape (shape t)))
    else
      center <- (if is_None center
                 then c <- lift (_compute_tensor_center t) ;; ret (PyTensor c)
                 else ret center) ;;
      a <- lift (tensor_attr angle "expand") ;;
      b <- lift (shape0 t) ;;
      angle <- lift (expand a [Z.of_nat b]) ;;
      c <- lift (tensor_attr center "expand") ;;
      b <- lift (shape0 t) ;;
      center <- lift (expand c [Z.of_nat b; (-1)%Z]) ;;
      rotation_matrix <- _compute_rotation_matrix angle center ;;
      m <- lift (slice_2x3 rotation_matrix) ;;
      affine t m.

(** [translate]: translate the tensor in pixel units. *)
Definition translate (tensor translation : pyobj) : py Tensor :=
  if negb (is_tensor tensor)
  then raise (Raise TypeError msg_tensor (FType (type tensor)))
  else if negb (is_tensor translation)
  then raise (Raise TypeError msg_translation (FType (type translation)))
  else
    t <- lift (tensor_attr tensor "shape") ;;
    if not_in_3_4 (length (shape t))
    then raise (Raise ValueError msg_shape (FShape (shape t)))
    else
      tr <- lift (tensor_attr translation "device") ;;
      translation_matrix <- lift (_compute_translation_matrix tr) ;;
      m <- lift (slice_2x3 translation_matrix) ;;
      affine t m.

(** [scale]: scales the input image. *)
Definition scale (tensor scale_factor center : pyobj) : py Tensor :=
  if negb (is_tensor tensor)
  then raise (Raise TypeError msg_tensor (FType (type tensor)))
  else if negb (is_tensor scale_factor)
  then raise (Raise TypeError msg_scale_factor (FType (type scale_factor)))
  else
    t <- lift (tensor_attr tensor "shape") ;;
    center <- (if is_None center
               then c <- lift (_compute_tensor_center t) ;; ret (PyTensor c)
               else ret center) ;;
    c <- lift (tensor_attr center "expand") ;;
    b <- lift (shape0 t) ;;
    center <- lift (expand c [Z.of_nat b; (-1)%Z]) ;;
    s <- lift (tensor_attr scale_factor "expand") ;;
    b <- lift (shape0 t) ;;
    scale_factor <- lift (expand s [Z.of_nat b]) ;;
    scaling_matrix <- _compute_scaling_matrix scale_factor center ;;
    m <- lift (slice_2x3 scaling_matrix) ;;
    affine t m.

(** ** The transform objects *)

(** [class Rotate(nn.Module)]. *)
Record Rotate : Type := mkRotate {
  Rotate_angle : pyobj;
  Rotate_center : pyobj
}.

Definition Rotate_init (angle center : pyobj) : py Rotate :=
  ret (mkRotate angle center).

Definition Rotate_forward (self : Rotate) (input : pyobj) : py Tensor :=
  rotate input (Rotate_angle self) (Rotate_center self).

Definition Rotate_repr (self : Rotate) : result string :=
  rbind (tensor_attr (Rotate_angle self) "item") (fun a =>
  rbind (item a) (fun x =>
  ok ("Rotate" ++ "(" ++ "angle=" ++ str x ++ ", center="
        ++ str (Rotate_center self) ++ ")")%string)).

(** [class Translate(nn.Module)]. *)
Record Translate : Type := mkTranslate {
  Translate_translation : pyobj
}.

Definition Translate_init (translation : pyobj) : py Translate :=
  ret (mkTranslate translation).

Definition Translate_forward (self : Translate) (input : pyobj) : py Tensor :=
  translate input (Translate_translation self).

Definition Translate_repr (self : Translate) : result string :=
  ok ("Translate" ++ "(" ++ "translation="
        ++ str (Translate_translation self) ++ ")")%string.

(** [class Scale(nn.Module)]. *)
Record Scale : Type := mkScale {
  Scale_scale_factor : pyobj;
  Scale_center : pyobj
}.

Definition Scale_init (scale_factor center : pyobj) : py Scale :=
  ret (mkScale scale_factor center).

Definition Scale_forward (self : Scale) (input : pyobj) : py Tensor :=
  scale input (Scale_scale_factor self) (Scale_center self).

Definition Scale_repr (self : Scale) : result string :=
  ok ("Scale" ++ "(" ++ "scale_factor=" ++ str (Scale_scale_factor self)
        ++ ", center=" ++ str (Scale_center self) ++ ")")%string.

End Affine.

(** ** Instances of the collaborators *)

(** Cosine and sine of an angle in degrees, for the right angles, where both
    are rational. *)
Definition cos_sin_deg (a : Q) : option (Q * Q) :=
  let q := Qred (a / 90) in
  if negb (Pos.eqb (Qden q) 1) then None
  else
    match (Qnum q mod 4)%Z with
    | 0%Z => Some (1%Q, 0%Q)
    | 1%Z => Some (0%Q, 1%Q)
    | 2%Z => Some ((-1)%Q, 0%Q)
    | _ => Some (0%Q, (-1)%Q)
    end.

(** One matrix of the rotation about [(cx, cy)] by [a] degrees with uniform
    scale [s], as nine row-major entries. *)
Definition rotation_entries (cx cy a s : Q) : option (list Q) :=
  match cos_sin_deg a with
  | None => None
  | Some (co, si) =>
      let alpha := Qred (s * co) in
      let beta := Qred (s * si) in
      Some [alpha; beta; Qred ((1 - alpha) * cx - beta * cy);
            Qred (- beta); alpha; Qred (beta * cx + (1 - alpha) * cy);
            0%Q; 0%Q; 1%Q]
  end.

Fixpoint rotation_batch (centers angles scales : list Q) : option (list Q) :=
  match centers, angles, scales with
  | cx :: cy :: centers', a :: angles', s :: scales' =>
      match rotation_entries cx cy a s, rotation_batch centers' angles' scales' with
      | Some m, Some ms => Some (m ++ ms)
      | _, _ => None
      end
  | _, _, _ => Some []
  end.

(** Modelled from the spec: the rotation-matrix primitive, which is imported
    from [torchgeometry.core] and is not in this file.  It takes a batch of
    centers, a batch of angles in degrees and a batch of scales, and returns a
    batch of 3x3 matrices, the rotation about the center with uniform scale.
    This instance is exact on right angles and refuses the others. *)
Definition right_angle_rotation_matrix2d (center angle scale : Tensor) : string + Tensor :=
  match shape center, shape angle, shape scale with
  | [b; 2], [b1], [b2] =>
      if (b =? b1) && (b =? b2)
      then match rotation_batch (data center) (data angle) (data scale) with
           | Some d => inr (mkTensor [b; 3; 3] d (t_dtype center) (t_device center))
           | None => inl "angle is not a multiple of 90 degrees"
           end
      else inl "center, angle and scale must have the same batch size"
  | _, _, _ => inl "expected a Bx2 center, a B angle and a B scale"
  end.

(** The entry of a plane of height [h] and width [w] nearest to where the
    inverse of the affine map [[a11 a12 tx] [a21 a22 ty]] sends [(x, y)];
    zero outside the plane. *)
Definition sample_nearest (mat plane : list Q) (h w : nat) (y x : nat) : Q :=
  match mat with
  | [a11; a12; tx; a21; a22; ty] =>
      let det := (a11 * a22 - a12 * a21)%Q in
      if Qeq_bool det 0 then 0%Q
      else
        let dx := (inject_Z (Z.of_nat x) - tx)%Q in
        let dy := (inject_Z (Z.of_nat y) - ty)%Q in
        let ix := Qfloor ((a22 * dx - a12 * dy) / det + (1 # 2))%Q in
        let iy := Qfloor ((a11 * dy - a21 * dx) / det + (1 # 2))%Q in
        if ((0 <=? ix) && (ix <? Z.of_nat w) && (0 <=? iy) && (iy <? Z.of_nat h))%Z
        then nth (Z.to_nat iy * w + Z.to_nat ix) plane 0%Q
        else 0%Q
  | _ => 0%Q
  end.

Definition warp_plane (mat plane : list Q) (h w oh ow : nat) : list Q :=
  flat_map (fun y => map (sample_nearest mat plane h w y) (seq 0 ow)) (seq 0 oh).

(** Modelled from the spec: the warp primitive, which is imported from
    [torchgeometry.core] and is not in this file.  It takes a [B,C,H,W] image,
    a batch of 2x3 matrices and an output size, and returns a [B,C,h,w] image
    resampled through the inverse of the matrix.  The spec leaves interpolation
    and boundary policy to the collaborator: this instance takes the nearest
    entry and pads with zeros. *)
Definition nearest_warp_affine (src matrix : Tensor) (dsize : list nat) : string + Tensor :=
  match shape src, shape matrix, dsize with
  | [b; c; h; w], [b'; 2; 3], [oh; ow] =>
      if b =? b'
      then inr (mkTensor [b; c; oh; ow]
                  (concat (map (fun p =>
                     flat_map (fun plane => warp_plane (snd p) plane h w oh ow)
                              (blocks c (h * w) (fst p)))
                     (combine (blocks b (c * h * w) (data src))
                              (blocks b 6 (data matrix)))))
                  (t_dtype src) (t_device src))
      else inl "image and matrix must have the same batch size"
  | _, _, _ => inl "expected a BxCxHxW image, a Bx2x3 matrix and an output size"
  end.

(** [str] on the values of the model; the layout of a tensor's text is not
    modelled. *)
Definition render (x : pyobj) : string :=
  match x with
  | PyNone => "None"
  | PyInt _ => "<int>"
  | PyFloat _ => "<float>"
  | PyStr s => s
  | PyTensor _ => "tensor(...)"
  end.

(** ** Vocabulary of the statements *)

(** The nine entries of one translation matrix, row by row. *)
Definition translation_entries (dx dy : Q) : list Q :=
  [1%Q; 0%Q; dx; 0%Q; 1%Q; dy; 0%Q; 0%Q; 1%Q].

(** The buffer of the batch of matrices for a buffer of [(dx, dy)] pairs. *)
Fixpoint translation_matrices (d : list Q) : list Q :=
  match d with
  | dx :: dy :: d' => translation_entries dx dy ++ translation_matrices d'
  | _ => []
  end.

(** What the two in-place additions leave in the buffer, on [b] pairs. *)
Definition translation_buffer (b : nat) (d : list Q) : list Q :=
  let m0 := concat (repeat (eye_data 3) b) in
  let m1 := concat (map (fun p => add_at 2 (snd p) (fst p))
                        (combine (blocks b 9 m0) (concat (map (firstn 1) (blocks b 2 d))))) in
  concat (map (fun p => add_at 5 (snd p) (fst p))
              (combine (blocks b 9 m1) (concat (map (skipn 1) (blocks b 2 d))))).

(** Entry [(i, j)] of matrix [k] in a batch of matrices. *)
Definition entry (m : Tensor) (k i j : nat) : Q :=
  match shape m with
  | [_; r; c] => nth ((k * r + i) * c + j) (data m) 0%Q
  | _ => 0%Q
  end.

(** Component [i] of vector [k] in a batch of vectors. *)
Definition component (v : Tensor) (k i : nat) : Q :=
  match shape v with
  | [_; c] => nth (k * c + i) (data v) 0%Q
  | _ => 0%Q
  end.

(** Entry [(i, j)] of the 3x3 identity. *)
Definition identity_entry (i j : nat) : Q := if i =? j then 1%Q else 0%Q.

(** Modelled from the spec: the layout of the warp primitive, [warp_affine] of
    [torchgeometry.core], which is not in this file.  A [B,C,H,W] image and an
    output size [(h, w)] give a [B,C,h,w] image. *)
Definition warp_keeps_layout (warp : Tensor -> Tensor -> list nat -> string + Tensor) : Prop :=
  forall src M out b c h w oh ow,
    shape src = [b; c; h; w] ->
    warp src M [oh; ow] = inr out ->
    shape out = [b; c; oh; ow].

(** The image as the warp primitive receives it. *)
Definition batched (t : Tensor) : Tensor :=
  if ndimension t =? 3 then unsqueeze0 t else t.

(** An image whose entries are 1, 2, 3, ... in row-major order. *)
Definition ramp (sh : list nat) : Tensor :=
  mkTensor sh (map (fun n => inject_Z (Z.of_nat n)) (seq 1 (numel sh))) float32 cpu.

(** The center of a plane of height [H] and width [W] as a tensor of the
    dtype holds it: the halves are taken in double precision, as Python does,
    and converted to the dtype. *)
Definition plane_center (dt : dtype) (H W : nat) : list Q :=
  [to_dtype dt (python_float (Z.of_nat W - 1) / 2)%Q;
   to_dtype dt (python_float (Z.of_nat H - 1) / 2)%Q].

(** Both coordinates of the center are finite numbers of the dtype. *)
Definition plane_fits (dt : dtype) (H W : nat) : Prop :=
  finite_in dt (python_float (Z.of_nat W - 1) / 2)%Q = true /\
  finite_in dt (python_float (Z.of_nat H - 1) / 2)%Q = true.

(** The errors of the module's own [raise] statements: the type errors and the
    shape error. *)
Definition module_error (e : exn) : bool :=
  match e with
  | Raise TypeError _ _ => true
  | Raise ValueError msg _ => String.eqb msg msg_shape
  | _ => false
  end.

(** A step that fails only with errors of torch, of the Python runtime or of a
    collaborator. *)
Definition quiet {A} (r : result A) : Prop :=
  forall e, r = inl e -> module_error e = false.

(** Modelled from the spec: the batch contract of the rotation-matrix
    primitive, [get_rotation_matrix2d] of [torchgeometry.core], which is not in
    this file.  It returns one matrix per angle. *)
Definition rotation_keeps_batch (grm : Tensor -> Tensor -> Tensor -> string + Tensor) : Prop :=
  forall center angle scale out n,
    shape angle = [n] ->
    grm center angle scale = inr out ->
    exists rows cols, shape out = [n; rows; cols].

(** The traces of the operations that build their matrix with the
    rotation-matrix primitive. *)
Definition rotation_then_warp (l : list event) : Prop :=
  l = [] \/
  (exists c a s, l = [CallRotationMatrix c a s]) \/
  (exists c a s src m d, l = [CallRotationMatrix c a s; CallWarp src m d]).

Definition msg_unpack : string := "not enough values to unpack (expected 2, got {})".

(** The buffer of the batch of 2x3 matrices for a buffer of [(dx, dy)] pairs. *)
Fixpoint translation_rows (d : list Q) : list Q :=
  match d with
  | dx :: dy :: d' => [1%Q; 0%Q; dx; 0%Q; 1%Q; dy] ++ translation_rows d'
  | _ => []
  end.

(** The 2x3 matrices [translate] builds from a well-formed (B, 2) translation. *)
Definition translation_affine (tr : Tensor) : Tensor :=
  mkTensor [hd 0 (shape tr); 2; 3] (translation_rows (data tr)) (t_dtype tr) (t_device tr).

(** The result of [affine] on an unbatched image: what the warp returns, with
    the leading dimension squeezed. *)
Definition squeezed (r : result Tensor) : result Tensor :=
  match r with
  | inl e => inl e
  | inr out => inr (squeeze0 out)
  end.

(** The centers [rotate] and [scale] compute for [n] images of height [H] and
    width [W]. *)
Definition default_centers (t : Tensor) (n H W : nat) : Tensor :=
  mkTensor [n; 2] (concat (repeat (plane_center (t_dtype t) H W) n)) (t_dtype t) (t_device t).

(** ** Lists and buffers *)

Lemma lastn_app {A} (l1 l2 : list A) : lastn (length l2) (l1 ++ l2) = l2.
Proof.
  unfold lastn. rewrite length_app.
  replace (length l1 + length l2 - length l2) with (length l1) by lia.
  rewrite skipn_app, skipn_all, Nat.sub_diag. reflexivity.
Qed.

(** ** The monad *)

Lemma bind_ret {A B} (a : A) (f : A -> py B) : bind (ret a) f = f a.
Proof. unfold bind, ret. cbn. destruct (f a). reflexivity. Qed.

Lemma bind_lift_ok {A B} (a : A) (f : A -> py B) : bind (lift (inr a)) f = f a.
Proof. exact (bind_ret a f). Qed.

Lemma bind_lift_err {A B} (e : exn) (f : A -> py B) : bind (lift (inl e)) f = raise e.
Proof. reflexivity. Qed.

Lemma outcome_bind_inr {A B} (m : py A) (f : A -> py B) (b : B) :
  outcome (bind m f) = inr b ->
  exists a, outcome m = inr a /\ outcome (f a) = inr b.
Proof.
  unfold outcome, bind. destruct (snd m) as [e | a]; cbn; intros H.
  - discriminate.
  - exists a. split; [reflexivity | exact H].
Qed.

Lemma calls_bind {A B} (m : py A) (f : A -> py B) (ev : event) :
  In ev (calls (bind m f)) ->
  In ev (calls m) \/ exists a, outcome m = inr a /\ In ev (calls (f a)).
Proof.
  unfold calls, outcome, bind. destruct (snd m) as [e | a]; cbn; intros H.
  - left. exact H.
  - apply in_app_or in H. destruct H as [H | H]; [left; exact H |].
    right. exists a. split; [reflexivity | exact H].
Qed.

Lemma calls_bind_eq {A B} (m : py A) (f : A -> py B) :
  calls (bind m f) =
  calls m ++ match outcome m with
             | inl _ => []
             | inr a => calls (f a)
             end.
Proof.
  unfold calls, outcome, bind. destruct (snd m); cbn; [rewrite app_nil_r |]; reflexivity.
Qed.

(** ** The center of the plane *)

Lemma compute_tensor_center_eq (t : Tensor) (pre : list nat) (H W : nat) :
  shape t = pre ++ [H; W] ->
  _compute_tensor_center t =
  ok (mkTensor [2]
        [to_dtype (t_dtype t) (python_float (Z.of_nat W - 1) / 2)%Q;
         to_dtype (t_dtype t) (python_float (Z.of_nat H - 1) / 2)%Q]
        (t_dtype t) (t_device t)).
Proof.
  intros Hs. unfold _compute_tensor_center. rewrite Hs.
  change 2 with (length [H; W]) at 1. rewrite lastn_app. reflexivity.
Qed.

Lemma expand_dim_one (b : nat) : expand_dim 1 (Z.of_nat b) = Some b.
Proof.
  unfold expand_dim.
  destruct (Z.eqb_spec (Z.of_nat b) (-1)); [lia |].
  destruct (Z.ltb_spec (Z.of_nat b) 0); [lia |].
  rewrite Nat2Z.id. destruct (Nat.eqb_spec b 1); [subst |]; reflexivity.
Qed.

Lemma expand_dim_keep (s : nat) : expand_dim s (-1) = Some s.
Proof. reflexivity. Qed.

(** A single 2-vector expanded to [(b, -1)] is [b] copies of it. *)
Lemma expand_vector2 (x y : Q) (dt : dtype) (dev : device) (b : nat) :
  expand (mkTensor [2] [x; y] dt dev) [Z.of_nat b; (-1)%Z] =
  ok (mkTensor [b; 2] (concat (repeat [x; y] b)) dt dev).
Proof.
  unfold expand. cbn -[expand_dim expand_data Z.of_nat].
  destruct (Z.ltb_spec (Z.of_nat b) 0); [lia |]. cbn -[expand_dim expand_data Z.of_nat].
  rewrite expand_dim_one, expand_dim_keep.
  unfold ok. do 2 f_equal.
  cbn. destruct b as [| [| b]]; reflexivity.
Qed.

(** ** The translation matrix *)

(** Adding to a zero entry stores the addend itself. *)
Lemma Qplus_zero_l (x : Q) : (0 + x)%Q = x.
Proof.
  destruct x as [n d]. unfold Qplus. cbn. rewrite Z.mul_1_r. reflexivity.
Qed.

Lemma expand_dim_same (s : nat) : expand_dim s (Z.of_nat s) = Some s.
Proof.
  unfold expand_dim.
  destruct (Z.eqb_spec (Z.of_nat s) (-1)); [lia |].
  destruct (Z.ltb_spec (Z.of_nat s) 0); [lia |].
  rewrite Nat2Z.id, Nat.eqb_refl. reflexivity.
Qed.

(** Reading a column at its own shape returns its buffer. *)
Lemma expand_data_column (b : nat) (d : list Q) :
  length d = b -> expand_data [b; 1] [b; 1] d = d.
Proof.
  cbn [expand_data]. rewrite Nat.eqb_refl. cbn [numel fold_right Nat.mul Nat.eqb].
  revert d. induction b as [| b IH]; intros d Hd.
  - destruct d; [reflexivity | discriminate].
  - destruct d as [| x d]; [discriminate |].
    cbn. f_equal. apply IH. cbn in Hd. lia.
Qed.

Lemma expand_column (v : Tensor) (b : nat) :
  shape v = [b; 1] -> length (data v) = b ->
  expand v [Z.of_nat b; 1%Z] = ok v.
Proof.
  intros Hs Hd. unfold expand, ndimension. rewrite Hs.
  cbn [length Nat.ltb Nat.leb Nat.sub firstn existsb repeat app expand_shape].
  rewrite expand_dim_same. change (expand_dim 1 1) with (Some 1). cbv iota beta.
  rewrite (expand_data_column b _ Hd). destruct v; cbn in *; subst; reflexivity.
Qed.

Lemma tensor_repeat_eye (b : nat) (dev : device) (dt : dtype) :
  tensor_repeat (torch_eye 3 dev dt) [b; 1; 1] =
  ok (mkTensor [b; 3; 3] (concat (repeat (eye_data 3) b)) dt dev).
Proof.
  unfold tensor_repeat, torch_eye, ndimension. cbn -[Nat.mul].
  rewrite Nat.mul_1_r. reflexivity.
Qed.

Lemma chunk2_pairs (t : Tensor) (b : nat) :
  shape t = [b; 2] ->
  chunk2 t =
  ok [mkTensor [b; 1] (concat (map (firstn 1) (blocks b 2 (data t)))) (t_dtype t) (t_device t);
      mkTensor [b; 1] (concat (map (skipn 1) (blocks b 2 (data t)))) (t_dtype t) (t_device t)].
Proof.
  intros Hs. unfold chunk2. rewrite Hs. cbn -[blocks Nat.mul].
  rewrite Nat.mul_1_r. reflexivity.
Qed.

Lemma length_heads (b : nat) (d : list Q) :
  length d = 2 * b -> length (concat (map (firstn 1) (blocks b 2 d))) = b.
Proof.
  revert d. induction b as [| b IH]; intros d Hd; [reflexivity |].
  destruct d as [| x [| y d]]; cbn in Hd; try lia.
  cbn. f_equal. apply IH. lia.
Qed.

Lemma length_tails (b : nat) (d : list Q) :
  length d = 2 * b -> length (concat (map (skipn 1) (blocks b 2 d))) = b.
Proof.
  revert d. induction b as [| b IH]; intros d Hd; [reflexivity |].
  destruct d as [| x [| y d]]; cbn in Hd; try lia.
  cbn. f_equal. apply IH. lia.
Qed.

Lemma iadd_cell_column (i j b : nat) (m v : Tensor) :
  shape m = [b; 3; 3] -> shape v = [b; 1] -> length (data v) = b ->
  iadd_cell i j m v =
  ok (mkTensor [b; 3; 3]
        (concat (map (fun p => add_at (i * 3 + j) (snd p) (fst p))
                     (combine (blocks b 9 (data m)) (data v))))
        (t_dtype m) (t_device m)).
Proof.
  intros Hm Hv Hd. unfold iadd_cell. rewrite Hm, (expand_column v b Hv Hd).
  reflexivity.
Qed.

Lemma compute_translation_matrix_unfold (t : Tensor) (b : nat) :
  shape t = [b; 2] -> well_formed t ->
  _compute_translation_matrix t =
  ok (mkTensor [b; 3; 3] (translation_buffer b (data t)) (t_dtype t) (t_device t)).
Proof.
  intros Hs Hwf. unfold well_formed in Hwf. rewrite Hs in Hwf.
  assert (Hlen : length (data t) = 2 * b) by (cbn in Hwf; lia).
  unfold _compute_translation_matrix, shape0. rewrite Hs.
  cbn [rbind ok]. rewrite tensor_repeat_eye. cbn [rbind ok].
  rewrite (chunk2_pairs t b Hs). cbn [rbind ok unpack2].
  rewrite (iadd_cell_column 0 2 b) by (try reflexivity; apply length_heads; exact Hlen).
  cbn [rbind ok].
  rewrite (iadd_cell_column 1 2 b) by (try reflexivity; apply length_tails; exact Hlen).
  reflexivity.
Qed.

Lemma translation_buffer_step (b : nat) (x y : Q) (d : list Q) :
  translation_buffer (S b) (x :: y :: d) =
  [1%Q; 0%Q; (0 + x)%Q; 0%Q; 1%Q; (0 + y)%Q; 0%Q; 0%Q; 1%Q] ++ translation_buffer b d.
Proof. reflexivity. Qed.

Lemma translation_buffer_eq (b : nat) (d : list Q) :
  length d = 2 * b -> translation_buffer b d = translation_matrices d.
Proof.
  revert d. induction b as [| b IH]; intros d Hd.
  - destruct d; [reflexivity | discriminate].
  - destruct d as [| x [| y d]]; cbn in Hd; try lia.
    rewrite translation_buffer_step, !Qplus_zero_l, IH by lia.
    reflexivity.
Qed.

(** The matrices built for a batch of [(dx, dy)] pairs. *)
Lemma compute_translation_matrix_eq (t : Tensor) (b : nat) :
  shape t = [b; 2] -> well_formed t ->
  _compute_translation_matrix t =
  ok (mkTensor [b; 3; 3] (translation_matrices (data t)) (t_dtype t) (t_device t)).
Proof.
  intros Hs Hwf. rewrite (compute_translation_matrix_unfold t b Hs Hwf).
  rewrite translation_buffer_eq; [reflexivity |].
  unfold well_formed in Hwf. rewrite Hs in Hwf. cbn in Hwf. lia.
Qed.

Lemma nth_translation_matrices (d : list Q) (k i j : nat) :
  k * 2 + 1 < length d -> i < 3 -> j < 3 ->
  nth ((k * 3 + i) * 3 + j) (translation_matrices d) 0%Q =
  if (i =? 0) && (j =? 2) then nth (k * 2) d 0%Q
  else if (i =? 1) && (j =? 2) then nth (k * 2 + 1) d 0%Q
  else identity_entry i j.
Proof.
  revert d. induction k as [| k IH]; intros d Hk Hi Hj.
  - destruct d as [| x [| y d]]; cbn in Hk; try lia.
    destruct i as [| [| [| i]]]; try lia;
      destruct j as [| [| [| j]]]; try lia; reflexivity.
  - destruct d as [| x [| y d]]; cbn in Hk; try lia.
    cbn [translation_matrices].
    replace ((S k * 3 + i) * 3 + j)
      with (length (translation_entries x y) + ((k * 3 + i) * 3 + j))
      by (cbn [length translation_entries]; lia).
    rewrite app_nth2_plus, IH by (cbn [length] in *; lia).
    replace (S k * 2) with (S (S (k * 2))) by lia.
    replace (S (S (k * 2)) + 1) with (S (S (k * 2 + 1))) by lia.
    reflexivity.
Qed.

Lemma length_translation_matrices (b : nat) (d : list Q) :
  length d = 2 * b -> length (translation_matrices d) = 9 * b.
Proof.
  revert d. induction b as [| b IH]; intros d Hd.
  - destruct d; [reflexivity | discriminate].
  - destruct d as [| x [| y d]]; cbn in Hd; try lia.
    cbn [translation_matrices]. rewrite length_app, (IH d) by lia.
    cbn [length translation_entries]. lia.
Qed.

(** C3. For a translation of shape (B, 2) the builder returns B 3x3 matrices,
    each the identity except that entry (0,2) is dx and entry (1,2) is dy of
    the matching 2-vector; for [[3, -2]] the matrix is
    [[1, 0, 3], [0, 1, -2], [0, 0, 1]]. *)
Theorem translation_matrix_is_identity_plus_offset :
  (forall (translation : Tensor) (B : nat),
      shape translation = [B; 2] -> well_formed translation ->
      exists m,
        _compute_translation_matrix translation = ok m /\
        shape m = [B; 3; 3] /\ well_formed m /\
        t_dtype m = t_dtype translation /\ t_device m = t_device translation /\
        forall k i j, k < B -> i < 3 -> j < 3 ->
          entry m k i j =
          if (i =? 0) && (j =? 2) then component translation k 0
          else if (i =? 1) && (j =? 2) then component translation k 1
          else identity_entry i j) /\
  (forall dt dev,
      _compute_translation_matrix (mkTensor [1; 2] [3%Q; (-2)%Q] dt dev) =
      ok (mkTensor [1; 3; 3] [1%Q; 0%Q; 3%Q; 0%Q; 1%Q; (-2)%Q; 0%Q; 0%Q; 1%Q] dt dev)).
Proof.
  split.
  - intros t B Hs Hwf.
    assert (Hlen : length (data t) = 2 * B)
      by (unfold well_formed in Hwf; rewrite Hs in Hwf; cbn in Hwf; lia).
    eexists. split; [apply (compute_translation_matrix_eq t B Hs Hwf) |].
    repeat split.
    + unfold well_formed. cbn [shape data numel fold_right].
      rewrite (length_translation_matrices B) by exact Hlen. lia.
    + intros k i j Hk Hi Hj. unfold entry, component. rewrite Hs.
      cbn [shape data]. rewrite Nat.add_0_r.
      apply nth_translation_matrices; lia.
  - intros dt dev. reflexivity.
Qed.

Lemma translation_matrix_is_identity_plus_offset_witness :
  let t := mkTensor [2; 2] [3%Q; (-2)%Q; 5 # 2; 7%Q] float32 cpu in
  exists m,
    _compute_translation_matrix t = ok m /\
    shape m = [2; 3; 3] /\ well_formed m /\
    t_dtype m = t_dtype t /\ t_device m = t_device t /\
    forall k i j, k < 2 -> i < 3 -> j < 3 ->
      entry m k i j =
      if (i =? 0) && (j =? 2) then component t k 0
      else if (i =? 1) && (j =? 2) then component t k 1
      else identity_entry i j.
Proof.
  intro t.
  apply (proj1 translation_matrix_is_identity_plus_offset t 2); reflexivity.
Defined.

(** ** The applier *)

Lemma delegated_inr {A} (r : string + A) (a : A) : delegated r = inr a -> r = inr a.
Proof. destruct r; cbn; congruence. Qed.

Lemma affine_returns warp (t m r : Tensor) :
  outcome (affine warp t m) = inr r ->
  exists b m' out,
    shape0 (batched t) = inr b /\
    expand m [Z.of_nat b; (-1)%Z; (-1)%Z] = inr m' /\
    warp (batched t) m' (lastn 2 (shape (batched t))) = inr out /\
    r = (if ndimension t =? 3 then squeeze0 out else out).
Proof.
  unfold affine. fold (batched t). intros H.
  apply outcome_bind_inr in H. destruct H as (b & Hb & H).
  apply outcome_bind_inr in H. destruct H as (m' & Hm & H).
  apply outcome_bind_inr in H. destruct H as (out & Hw & H).
  cbn in Hb, Hm, Hw, H. apply delegated_inr in Hw.
  exists b, m', out. repeat split; congruence.
Qed.

Lemma affine_calls warp (t m : Tensor) (ev : event) :
  In ev (calls (affine warp t m)) ->
  exists m', ev = CallWarp (batched t) m' (lastn 2 (shape (batched t))).
Proof.
  unfold affine. fold (batched t). intros H.
  apply calls_bind in H. destruct H as [[] | (b & _ & H)].
  apply calls_bind in H. destruct H as [[] | (m' & _ & H)].
  apply calls_bind in H. destruct H as [H | (out & _ & [])].
  cbn in H. destruct H as [H | []]. exists m'. congruence.
Qed.

Lemma lastn_batched (t : Tensor) :
  ndimension t = 3 \/ ndimension t = 4 ->
  lastn 2 (shape (batched t)) = lastn 2 (shape t).
Proof.
  unfold batched, ndimension. intros [H | H]; rewrite H; cbn [Nat.eqb]; [| reflexivity].
  cbn [unsqueeze0 shape].
  destruct (shape t) as [| c [| h [| w [| x l]]]]; try discriminate. reflexivity.
Qed.

Lemma affine_shape warp (t m r : Tensor) :
  warp_keeps_layout warp ->
  ndimension t = 3 \/ ndimension t = 4 ->
  outcome (affine warp t m) = inr r ->
  shape r = shape t.
Proof.
  intros Hwarp Hrank H. apply affine_returns in H.
  destruct H as (b & m' & out & _ & _ & Hw & ->).
  unfold batched, ndimension in *. destruct Hrank as [Hr | Hr]; rewrite Hr in *; cbn [Nat.eqb] in *.
  - destruct (shape t) as [| c [| h [| w [| x l]]]] eqn:Hs; try discriminate.
    cbn in Hw. rewrite Hs in Hw. cbn in Hw.
    apply (Hwarp _ _ _ 1 c h w h w) in Hw; [| cbn; rewrite Hs; reflexivity].
    unfold squeeze0. rewrite Hw. reflexivity.
  - destruct (shape t) as [| b0 [| c [| h [| w [| x l]]]]] eqn:Hs; try discriminate.
    cbn in Hw.
    apply (Hwarp _ _ _ b0 c h w h w) in Hw; [| exact Hs]. exact Hw.
Qed.

Lemma rotate_returns grm warp (tensor angle center : pyobj) (r : Tensor) :
  outcome (rotate grm warp tensor angle center) = inr r ->
  exists t m, tensor = PyTensor t /\ not_in_3_4 (ndimension t) = false /\
              outcome (affine warp t m) = inr r.
Proof.
  unfold rotate. intros H.
  destruct tensor as [| | | | t]; try discriminate H.
  destruct angle as [| | | | a]; try discriminate H.
  cbn [is_tensor negb andb tensor_attr] in H. rewrite andb_false_r in H.
  unfold ok in H. rewrite bind_lift_ok in H. fold (ndimension t) in H.
  destruct (not_in_3_4 (ndimension t)) eqn:Hr; [discriminate H |].
  do 9 (apply outcome_bind_inr in H; destruct H as (? & _ & H)).
  eauto.
Qed.

Lemma translate_returns warp (tensor translation : pyobj) (r : Tensor) :
  outcome (translate warp tensor translation) = inr r ->
  exists t m, tensor = PyTensor t /\ not_in_3_4 (ndimension t) = false /\
              outcome (affine warp t m) = inr r.
Proof.
  unfold translate. intros H.
  destruct tensor as [| | | | t]; try discriminate H.
  destruct translation as [| | | | a]; try discriminate H.
  cbn [is_tensor negb tensor_attr] in H.
  unfold ok in H. rewrite bind_lift_ok in H. fold (ndimension t) in H.
  destruct (not_in_3_4 (ndimension t)) eqn:Hr; [discriminate H |].
  do 3 (apply outcome_bind_inr in H; destruct H as (? & _ & H)).
  eauto.
Qed.

Lemma scale_returns grm warp (tensor scale_factor center : pyobj) (r : Tensor) :
  outcome (scale grm warp tensor scale_factor center) = inr r ->
  exists t m, tensor = PyTensor t /\ outcome (affine warp t m) = inr r.
Proof.
  unfold scale. intros H.
  destruct tensor as [| | | | t]; try discriminate H.
  destruct scale_factor as [| | | | a]; try discriminate H.
  cbn [is_tensor negb tensor_attr] in H.
  unfold ok in H. rewrite bind_lift_ok in H.
  do 9 (apply outcome_bind_inr in H; destruct H as (? & _ & H)).
  eauto.
Qed.

Lemma not_in_3_4_false (n : nat) : not_in_3_4 n = false <-> n = 3 \/ n = 4.
Proof.
  unfold not_in_3_4. rewrite negb_false_iff, orb_true_iff, !Nat.eqb_eq. reflexivity.
Qed.

Lemma nearest_warp_keeps_layout : warp_keeps_layout nearest_warp_affine.
Proof.
  intros src M out b c h w oh ow Hs H. unfold nearest_warp_affine in H.
  rewrite Hs in H.
  repeat match type of H with
         | match ?x with _ => _ end = _ => destruct x; try discriminate H
         | (if ?x then _ else _) = _ => destruct x; try discriminate H
         end.
  injection H as <-. reflexivity.
Qed.

(** C1. An image of rank 3 or 4 comes back from [affine], and so from [rotate],
    [translate] and [scale], with its rank and its trailing (H, W): the warp is
    called once, on the image with a batch dimension of size 1 put in front
    when it had rank 3, with the image's own (H, W) as output size, and that
    dimension is removed from what the warp returns. *)
Theorem affine_keeps_rank_and_size :
  forall grm warp,
    warp_keeps_layout warp ->
    forall t : Tensor,
      ndimension t = 3 \/ ndimension t = 4 ->
      (forall m r, outcome (affine warp t m) = inr r ->
                   ndimension r = ndimension t /\
                   lastn 2 (shape r) = lastn 2 (shape t)) /\
      (forall m ev, In ev (calls (affine warp t m)) ->
                    exists m', ev = CallWarp (batched t) m' (lastn 2 (shape t))) /\
      (ndimension t = 3 ->
       batched t = unsqueeze0 t /\
       forall m r, outcome (affine warp t m) = inr r ->
                   exists m' out,
                     warp (unsqueeze0 t) m' (lastn 2 (shape t)) = inr out /\
                     shape out = 1 :: shape t /\ r = squeeze0 out) /\
      (ndimension t = 4 ->
       batched t = t /\
       forall m r, outcome (affine warp t m) = inr r ->
                   exists m', warp t m' (lastn 2 (shape t)) = inr r) /\
      (forall angle center r,
          outcome (rotate grm warp (PyTensor t) angle center) = inr r ->
          ndimension r = ndimension t /\ lastn 2 (shape r) = lastn 2 (shape t)) /\
      (forall translation r,
          outcome (translate warp (PyTensor t) translation) = inr r ->
          ndimension r = ndimension t /\ lastn 2 (shape r) = lastn 2 (shape t)) /\
      (forall scale_factor center r,
          outcome (scale grm warp (PyTensor t) scale_factor center) = inr r ->
          ndimension r = ndimension t /\ lastn 2 (shape r) = lastn 2 (shape t)).
Proof.
  intros grm warp Hwarp t Hrank.
  assert (Hshape : forall m r, outcome (affine warp t m) = inr r -> shape r = shape t)
    by (intros m r; apply affine_shape; assumption).
  assert (Hkeep : forall m r, outcome (affine warp t m) = inr r ->
                              ndimension r = ndimension t /\
                              lastn 2 (shape r) = lastn 2 (shape t)).
  { intros m r H. unfold ndimension. rewrite (Hshape m r H). split; reflexivity. }
  split; [exact Hkeep |].
  split.
  { intros m ev H. apply affine_calls in H. destruct H as (m' & ->).
    exists m'. rewrite lastn_batched by exact Hrank. reflexivity. }
  split.
  { intros H3. unfold batched. rewrite H3. split; [reflexivity |].
    intros m r H. pose proof (Hshape m r H) as Hr.
    apply affine_returns in H. destruct H as (b & m' & out & _ & _ & Hw & Hsq).
    rewrite lastn_batched in Hw by exact Hrank.
    unfold batched in Hw. rewrite H3 in Hw, Hsq. cbn [Nat.eqb] in Hw, Hsq.
    exists m', out. split; [exact Hw |]. split; [| exact Hsq].
    unfold ndimension in H3.
    destruct (shape t) as [| c [| h [| w [| x l]]]] eqn:Hs; try discriminate.
    cbn in Hw. apply (Hwarp _ _ _ 1 c h w h w) in Hw; [exact Hw |].
    cbn. rewrite Hs. reflexivity. }
  split.
  { intros H4. unfold batched. rewrite H4. split; [reflexivity |].
    intros m r H.
    apply affine_returns in H. destruct H as (b & m' & out & _ & _ & Hw & Hsq).
    rewrite lastn_batched in Hw by exact Hrank.
    unfold batched in Hw. rewrite H4 in Hw, Hsq. cbn [Nat.eqb] in Hw, Hsq.
    subst r. exists m'. exact Hw. }
  split.
  { intros angle center r H. apply rotate_returns in H.
    destruct H as (t' & m & Heq & _ & H). injection Heq as <-. exact (Hkeep m r H). }
  split.
  { intros translation r H. apply translate_returns in H.
    destruct H as (t' & m & Heq & _ & H). injection Heq as <-. exact (Hkeep m r H). }
  intros scale_factor center r H. apply scale_returns in H.
  destruct H as (t' & m & Heq & H). injection Heq as <-. exact (Hkeep m r H).
Qed.

Lemma affine_keeps_rank_and_size_witness :
  let t := ramp [1; 3; 3] in
  let angle := PyTensor (mkTensor [1] [90%Q] float32 cpu) in
  outcome (rotate right_angle_rotation_matrix2d nearest_warp_affine (PyTensor t) angle PyNone)
  = inr (mkTensor [1; 3; 3] [3%Q; 6%Q; 9%Q; 2%Q; 5%Q; 8%Q; 1%Q; 4%Q; 7%Q] float32 cpu) /\
  forall r,
    outcome (rotate right_angle_rotation_matrix2d nearest_warp_affine (PyTensor t) angle PyNone)
    = inr r ->
    ndimension r = ndimension t /\ lastn 2 (shape r) = lastn 2 (shape t).
Proof.
  intros t angle. split; [vm_compute; reflexivity |].
  intros r.
  apply (proj1 (proj2 (proj2 (proj2 (proj2
           (affine_keeps_rank_and_size right_angle_rotation_matrix2d nearest_warp_affine
              nearest_warp_keeps_layout t (or_introl eq_refl))))))).
Defined.

(** ** The default center *)

(** Splits on the result of the next pure step of a computation in [H]. *)
Ltac step_in H :=
  match type of H with
  | context [bind (lift ?r) _] =>
      let E := fresh "E" in
      destruct r eqn:E; [rewrite bind_lift_err in H | rewrite bind_lift_ok in H]
  end.

Lemma calls_raise {A} (e : exn) (ev : event) : ~ In ev (calls (@raise A e)).
Proof. intros []. Qed.



(** *** Numbers of the formats *)














(** ** Where the errors come from *)

Lemma quiet_ok {A} (a : A) : quiet (ok a).
Proof. intros e H. discriminate H. Qed.

Lemma quiet_inr {A} (a : A) : quiet (@inr exn A a).
Proof. intros e H. discriminate H. Qed.

Lemma quiet_rbind {A B} (m : result A) (f : A -> result B) :
  quiet m -> (forall a, quiet (f a)) -> quiet (rbind m f).
Proof.
  intros Hm Hf e H. destruct m as [e' | a]; cbn in H.
  - injection H as <-. apply Hm. reflexivity.
  - exact (Hf a e H).
Qed.

Lemma quiet_bind {A B} (m : py A) (f : A -> py B) :
  quiet (outcome m) -> (forall a, quiet (outcome (f a))) -> quiet (outcome (bind m f)).
Proof.
  intros Hm Hf e H. unfold outcome, bind in *. destruct (snd m) as [e' | a]; cbn in H.
  - injection H as <-. apply Hm. reflexivity.
  - exact (Hf a e H).
Qed.

Lemma quiet_delegated {A} (r : string + A) : quiet (delegated r).
Proof. intros e H. destruct r; cbn in H; [injection H as <- | discriminate H]. reflexivity. Qed.

(** Case analysis on every test a failing step went through. *)
Ltac quiet_cases H :=
  repeat match type of H with
         | match ?x with _ => _ end = _ => destruct x eqn:?; try discriminate H
         | (if ?x then _ else _) = _ => destruct x eqn:?; try discriminate H
         | (let '(_, _) := ?x in _) = _ => destruct x eqn:?
         end;
  try (injection H as <-; reflexivity).

Lemma quiet_shape0 (t : Tensor) : quiet (shape0 t).
Proof. intros e H. unfold shape0, throw, ok in H. quiet_cases H. Qed.

Lemma quiet_expand (t : Tensor) (sizes : list Z) : quiet (expand t sizes).
Proof. intros e H. unfold expand, throw, ok in H. cbv zeta in H. quiet_cases H. Qed.

Lemma quiet_tensor_attr (x : pyobj) (attr : string) : quiet (tensor_attr x attr).
Proof. intros e H. unfold tensor_attr, throw, ok in H. quiet_cases H. Qed.

Lemma quiet_slice_2x3 (m : Tensor) : quiet (slice_2x3 m).
Proof. intros e H. unfold slice_2x3, throw, ok in H. quiet_cases H. Qed.

Lemma quiet_unpack2 {A} (xs : list A) : quiet (unpack2 xs).
Proof. intros e H. unfold unpack2, throw, ok in H. quiet_cases H. Qed.

Lemma quiet_tensor_repeat (t : Tensor) (reps : list nat) : quiet (tensor_repeat t reps).
Proof. intros e H. unfold tensor_repeat, throw, ok in H. quiet_cases H. Qed.

Lemma quiet_chunk2 (t : Tensor) : quiet (chunk2 t).
Proof. intros e H. unfold chunk2, throw, ok in H. cbv zeta in H. quiet_cases H. Qed.

Lemma quiet_iadd_cell (i j : nat) (m v : Tensor) : quiet (iadd_cell i j m v).
Proof.
  intros e H. unfold iadd_cell, throw, ok in H.
  destruct (shape m) as [| b [| r [| c [| x l]]]]; try (injection H as <-; reflexivity).
  destruct (expand v [Z.of_nat b; 1%Z]) as [e' | v'] eqn:Hv; [| discriminate H].
  injection H as <-. exact (quiet_expand _ _ _ Hv).
Qed.

Lemma quiet_compute_tensor_center (t : Tensor) : quiet (_compute_tensor_center t).
Proof.
  unfold _compute_tensor_center. apply quiet_rbind; [apply quiet_unpack2 |].
  intros [h w]. apply quiet_ok.
Qed.

Lemma quiet_compute_translation_matrix (t : Tensor) : quiet (_compute_translation_matrix t).
Proof.
  unfold _compute_translation_matrix.
  apply quiet_rbind; [apply quiet_shape0 | intros b].
  apply quiet_rbind; [apply quiet_tensor_repeat | intros m].
  apply quiet_rbind; [apply quiet_chunk2 | intros pieces].
  apply quiet_rbind; [apply quiet_unpack2 | intros [dx dy]].
  apply quiet_rbind; [apply quiet_iadd_cell | intros m1].
  apply quiet_rbind; [apply quiet_iadd_cell | intros m2].
  apply quiet_ok.
Qed.

Lemma quiet_affine warp (t m : Tensor) : quiet (outcome (affine warp t m)).
Proof.
  unfold affine.
  apply quiet_bind; [apply quiet_shape0 | intros b].
  apply quiet_bind; [apply quiet_expand | intros m'].
  apply quiet_bind; [apply quiet_delegated | intros out].
  apply quiet_inr.
Qed.

Lemma quiet_default_center (t : Tensor) (center : pyobj) :
  quiet (outcome (if is_None center
                  then c <- lift (_compute_tensor_center t) ;; ret (PyTensor c)
                  else ret center)).
Proof.
  destruct (is_None center); [| apply quiet_inr].
  apply quiet_bind; [apply quiet_compute_tensor_center | intros c; apply quiet_inr].
Qed.

(** After the checks at its head, what is left of [rotate] is quiet. *)
Lemma quiet_rotate grm warp (t a : Tensor) (center : pyobj) :
  not_in_3_4 (ndimension t) = false ->
  quiet (outcome (rotate grm warp (PyTensor t) (PyTensor a) center)).
Proof.
  intros Hr. unfold rotate.
  cbn [is_tensor negb andb tensor_attr]. rewrite andb_false_r. unfold ok.
  rewrite bind_lift_ok. fold (ndimension t). rewrite Hr.
  apply quiet_bind; [apply quiet_default_center | intros c0].
  apply quiet_bind; [apply quiet_inr | intros a0].
  apply quiet_bind; [apply quiet_shape0 | intros b].
  apply quiet_bind; [apply quiet_expand | intros a1].
  apply quiet_bind; [apply quiet_tensor_attr | intros c1].
  apply quiet_bind; [apply quiet_shape0 | intros b1].
  apply quiet_bind; [apply quiet_expand | intros c2].
  apply quiet_bind.
  { unfold _compute_rotation_matrix.
    apply quiet_bind; [apply quiet_delegated | intros m; apply quiet_inr]. }
  intros rm.
  apply quiet_bind; [apply quiet_slice_2x3 | intros m].
  apply quiet_affine.
Qed.

Lemma quiet_translate warp (t tr : Tensor) :
  not_in_3_4 (ndimension t) = false ->
  quiet (outcome (translate warp (PyTensor t) (PyTensor tr))).
Proof.
  intros Hr. unfold translate.
  cbn [is_tensor negb andb tensor_attr]. unfold ok.
  rewrite bind_lift_ok. fold (ndimension t). rewrite Hr.
  apply quiet_bind; [apply quiet_inr | intros tr0].
  apply quiet_bind; [apply quiet_compute_translation_matrix | intros tm].
  apply quiet_bind; [apply quiet_slice_2x3 | intros m].
  apply quiet_affine.
Qed.

(** [scale] has no check after the two type checks. *)
Lemma quiet_scale grm warp (t sf : Tensor) (center : pyobj) :
  quiet (outcome (scale grm warp (PyTensor t) (PyTensor sf) center)).
Proof.
  unfold scale.
  cbn [is_tensor negb andb tensor_attr]. unfold ok.
  rewrite bind_lift_ok.
  apply quiet_bind; [apply quiet_default_center | intros c0].
  apply quiet_bind; [apply quiet_tensor_attr | intros c1].
  apply quiet_bind; [apply quiet_shape0 | intros b].
  apply quiet_bind; [apply quiet_expand | intros c2].
  apply quiet_bind; [apply quiet_inr | intros s0].
  apply quiet_bind; [apply quiet_shape0 | intros b1].
  apply quiet_bind; [apply quiet_expand | intros s1].
  apply quiet_bind.
  { unfold _compute_scaling_matrix.
    apply quiet_bind; [apply quiet_delegated | intros m; apply quiet_inr]. }
  intros sm.
  apply quiet_bind; [apply quiet_slice_2x3 | intros m].
  apply quiet_affine.
Qed.

(** The shape check of [rotate] and [translate]. *)
Lemma rotate_bad_rank grm warp (t a : Tensor) (center : pyobj) :
  not_in_3_4 (ndimension t) = true ->
  rotate grm warp (PyTensor t) (PyTensor a) center =
  raise (Raise ValueError msg_shape (FShape (shape t))).
Proof.
  intros Hr. unfold rotate.
  cbn [is_tensor negb andb tensor_attr]. rewrite andb_false_r. unfold ok.
  rewrite bind_lift_ok. fold (ndimension t). rewrite Hr. reflexivity.
Qed.

Lemma translate_bad_rank warp (t tr : Tensor) :
  not_in_3_4 (ndimension t) = true ->
  translate warp (PyTensor t) (PyTensor tr) =
  raise (Raise ValueError msg_shape (FShape (shape t))).
Proof.
  intros Hr. unfold translate.
  cbn [is_tensor negb andb tensor_attr]. unfold ok.
  rewrite bind_lift_ok. fold (ndimension t). rewrite Hr. reflexivity.
Qed.

Lemma rotate_never_center_error grm warp (tensor angle center : pyobj) (arg : fmt_arg) :
  outcome (rotate grm warp tensor angle center) <> inl (Raise TypeError msg_center arg).
Proof.
  destruct tensor as [| | | | t]; try (intros H; discriminate H).
  destruct angle as [| | | | a]; try (intros H; discriminate H).
  destruct (not_in_3_4 (ndimension t)) eqn:Hr.
  - rewrite rotate_bad_rank by exact Hr. intros H. discriminate H.
  - intros H. apply (quiet_rotate grm warp t a center Hr) in H. discriminate H.
Qed.

(** C5. The check that guards the center in [rotate] looks at the type of the
    angle: when tensor and angle are tensors the center type error is not
    raised, whatever the center is, and no call with a tensor angle raises it;
    a center that is neither None nor a tensor goes through the checks and
    fails later, at [center.expand]. *)
Theorem rotate_center_check_tests_angle :
  forall grm warp,
    (forall (t a : Tensor) (center : pyobj) (arg : fmt_arg),
        outcome (rotate grm warp (PyTensor t) (PyTensor a) center)
        <> inl (Raise TypeError msg_center arg)) /\
    (forall (tensor angle center : pyobj) (arg : fmt_arg),
        is_tensor angle = true ->
        outcome (rotate grm warp tensor angle center)
        <> inl (Raise TypeError msg_center arg)) /\
    (forall (t a a' : Tensor) (center : pyobj) (n : nat),
        is_None center = false -> is_tensor center = false ->
        ndimension t = 3 \/ ndimension t = 4 ->
        shape0 t = inr n -> expand a [Z.of_nat n] = inr a' ->
        rotate grm warp (PyTensor t) (PyTensor a) center =
        raise (Raise AttributeError "'{}' object has no attribute '{}'"
                 (FAttr (type center) "expand"))).
Proof.
  intros grm warp. split; [| split].
  - intros t a center arg. apply rotate_never_center_error.
  - intros tensor angle center arg _. apply rotate_never_center_error.
  - intros t a a' center n Hnone Htensor Hrank Hn Ha.
    apply not_in_3_4_false in Hrank. unfold rotate.
    cbn [is_tensor negb andb tensor_attr]. rewrite andb_false_r. unfold ok.
    rewrite bind_lift_ok. fold (ndimension t). rewrite Hrank, Hnone.
    rewrite bind_ret, bind_lift_ok, Hn, bind_lift_ok, Ha, bind_lift_ok.
    destruct center; try discriminate; reflexivity.
Qed.

Lemma rotate_center_check_tests_angle_witness :
  let t := ramp [1; 2; 2] in
  let angle := mkTensor [1] [0%Q] float32 cpu in
  outcome (rotate right_angle_rotation_matrix2d nearest_warp_affine
             (PyTensor t) (PyTensor angle) (PyStr "middle"))
  <> inl (Raise TypeError msg_center (FType str_t)) /\
  rotate right_angle_rotation_matrix2d nearest_warp_affine
    (PyTensor t) (PyTensor angle) (PyStr "middle") =
  raise (Raise AttributeError "'{}' object has no attribute '{}'" (FAttr str_t "expand")).
Proof.
  intros t angle. split.
  - apply (proj1 (proj2 (rotate_center_check_tests_angle
                           right_angle_rotation_matrix2d nearest_warp_affine))
             (PyTensor t) (PyTensor angle) (PyStr "middle") (FType str_t)).
    reflexivity.
  - apply (proj2 (proj2 (rotate_center_check_tests_angle
                           right_angle_rotation_matrix2d nearest_warp_affine))
             t angle angle (PyStr "middle") 1); try reflexivity.
    left. reflexivity.
Defined.

(** C6. [scale] has no rank check: with a tensor and a tensor scale factor it
    never raises the shape error of [rotate] and [translate], whatever the rank
    of the tensor and whatever the center. *)
Theorem scale_never_raises_shape_error :
  forall grm warp (t sf : Tensor) (center : pyobj) (arg : fmt_arg),
    outcome (scale grm warp (PyTensor t) (PyTensor sf) center)
    <> inl (Raise ValueError msg_shape arg).
Proof.
  intros grm warp t sf center arg H.
  apply (quiet_scale grm warp t sf center) in H. discriminate H.
Qed.

Lemma scale_never_raises_shape_error_witness :
  let t := ramp [2; 2] in
  let sf := mkTensor [1] [1%Q] float32 cpu in
  outcome (rotate right_angle_rotation_matrix2d nearest_warp_affine
             (PyTensor t) (PyTensor sf) PyNone)
  = inl (Raise ValueError msg_shape (FShape [2; 2])) /\
  outcome (scale right_angle_rotation_matrix2d nearest_warp_affine
             (PyTensor t) (PyTensor sf) PyNone)
  <> inl (Raise ValueError msg_shape (FShape [2; 2])).
Proof.
  intros t sf. split; [reflexivity |].
  apply (scale_never_raises_shape_error right_angle_rotation_matrix2d nearest_warp_affine
           t sf PyNone (FShape [2; 2])).
Defined.

(** C7 does not hold of every call: the type checks come before the rank check,
    so with a rank-2 tensor and an angle, or a translation, that is not a
    tensor, the type error is raised and the shape error is not. *)
Lemma rank_check_comes_after_type_checks :
  let t := ramp [2; 2] in
  not_in_3_4 (ndimension t) = true /\
  rotate right_angle_rotation_matrix2d nearest_warp_affine (PyTensor t) (PyFloat 90) PyNone
  = raise (Raise TypeError msg_angle (FType float_t)) /\
  translate nearest_warp_affine (PyTensor t) (PyFloat 1)
  = raise (Raise TypeError msg_translation (FType float_t)) /\
  ~ (forall (tensor : Tensor) (angle center : pyobj),
        not_in_3_4 (ndimension tensor) = true ->
        outcome (rotate right_angle_rotation_matrix2d nearest_warp_affine
                   (PyTensor tensor) angle center)
        = inl (Raise ValueError msg_shape (FShape (shape tensor)))).
Proof.
  intros t. repeat split.
  intros H. specialize (H t (PyFloat 90) PyNone eq_refl). discriminate H.
Qed.

(** C7, for tensor arguments. With a tensor of rank outside {3, 4} and an angle, or a
    translation, that is a tensor, [rotate] and [translate] raise the shape
    error, which carries the shape, before any call to a collaborator; with a
    tensor of rank 3 or 4 they never raise it. *)
Theorem rank_check_of_rotate_and_translate :
  forall grm warp (t other : Tensor) (center : pyobj),
    (ndimension t <> 3 -> ndimension t <> 4 ->
     rotate grm warp (PyTensor t) (PyTensor other) center
     = ([], inl (Raise ValueError msg_shape (FShape (shape t)))) /\
     translate warp (PyTensor t) (PyTensor other)
     = ([], inl (Raise ValueError msg_shape (FShape (shape t))))) /\
    (ndimension t = 3 \/ ndimension t = 4 ->
     forall arg,
       outcome (rotate grm warp (PyTensor t) (PyTensor other) center)
       <> inl (Raise ValueError msg_shape arg) /\
       outcome (translate warp (PyTensor t) (PyTensor other))
       <> inl (Raise ValueError msg_shape arg)).
Proof.
  intros grm warp t other center. split.
  - intros H3 H4.
    assert (Hr : not_in_3_4 (ndimension t) = true).
    { destruct (not_in_3_4 (ndimension t)) eqn:E; [reflexivity |].
      apply not_in_3_4_false in E. tauto. }
    split; [apply rotate_bad_rank | apply translate_bad_rank]; exact Hr.
  - intros Hrank arg. apply not_in_3_4_false in Hrank. split; intros H.
    + apply (quiet_rotate grm warp t other center Hrank) in H. discriminate H.
    + apply (quiet_translate warp t other Hrank) in H. discriminate H.
Qed.

Lemma rank_check_of_rotate_and_translate_witness :
  let flat := ramp [2; 2] in
  let deep := ramp [1; 1; 1; 2; 2] in
  let image := ramp [1; 2; 2] in
  let other := mkTensor [1; 2] [0%Q; 0%Q] float32 cpu in
  (rotate right_angle_rotation_matrix2d nearest_warp_affine
     (PyTensor flat) (PyTensor other) PyNone
   = ([], inl (Raise ValueError msg_shape (FShape [2; 2]))) /\
   translate nearest_warp_affine (PyTensor flat) (PyTensor other)
   = ([], inl (Raise ValueError msg_shape (FShape [2; 2])))) /\
  (rotate right_angle_rotation_matrix2d nearest_warp_affine
     (PyTensor deep) (PyTensor other) PyNone
   = ([], inl (Raise ValueError msg_shape (FShape [1; 1; 1; 2; 2]))) /\
   translate nearest_warp_affine (PyTensor deep) (PyTensor other)
   = ([], inl (Raise ValueError msg_shape (FShape [1; 1; 1; 2; 2])))) /\
  outcome (translate nearest_warp_affine (PyTensor image) (PyTensor other)) = inr image /\
  outcome (translate nearest_warp_affine (PyTensor image) (PyTensor other))
  <> inl (Raise ValueError msg_shape (FShape [1; 2; 2])).
Proof.
  intros flat deep image other.
  split.
  { apply (proj1 (rank_check_of_rotate_and_translate
                    right_angle_rotation_matrix2d nearest_warp_affine flat other PyNone));
      cbn; lia. }
  split.
  { apply (proj1 (rank_check_of_rotate_and_translate
                    right_angle_rotation_matrix2d nearest_warp_affine deep other PyNone));
      cbn; lia. }
  split; [vm_compute; reflexivity |].
  apply (proj2 (rank_check_of_rotate_and_translate
                  right_angle_rotation_matrix2d nearest_warp_affine image other PyNone)
           (or_introl eq_refl) (FShape [1; 2; 2])).
Defined.

(** ** Unbatched images *)

Lemma expand_to_batch (a a' : Tensor) (n : nat) :
  expand a [Z.of_nat n] = inr a' -> shape a' = [n].
Proof.
  unfold expand, ndimension, throw, ok.
  destruct (shape a) as [| s [| s' l]]; cbn -[Z.of_nat expand_data]; intros H.
  - destruct (Z.ltb_spec (Z.of_nat n) 0); [lia |]. cbn -[Z.of_nat expand_data] in H.
    rewrite expand_dim_one in H. injection H as <-. reflexivity.
  - unfold expand_dim in H.
    destruct (Z.eqb_spec (Z.of_nat n) (-1)); [lia |].
    destruct (Z.ltb_spec (Z.of_nat n) 0); [lia |].
    rewrite Nat2Z.id in H.
    destruct (Nat.eqb_spec n s); [subst; injection H as <-; reflexivity |].
    destruct (s =? 1); [injection H as <-; reflexivity | discriminate H].
  - discriminate H.
Qed.

Lemma slice_2x3_batch (rm m : Tensor) (n rows cols : nat) :
  shape rm = [n; rows; cols] -> slice_2x3 rm = inr m ->
  shape m = [n; Nat.min 2 rows; Nat.min 3 cols].
Proof.
  intros Hs. unfold slice_2x3, ok. rewrite Hs. cbn -[Nat.min blocks].
  intros H. injection H as <-. reflexivity.
Qed.

(** A batch of [n] matrices, [n] other than 1, does not expand to a batch of
    one. *)
Lemma expand_batch_to_one (m : Tensor) (n r c : nat) :
  shape m = [n; r; c] -> n <> 1 ->
  expand m [Z.of_nat 1; (-1)%Z; (-1)%Z] = inl (Raise RuntimeError expand_msg (FShape (shape m))).
Proof.
  intros Hs Hn. unfold expand, ndimension, throw. rewrite Hs.
  cbn -[expand_data]. unfold expand_dim. cbn -[expand_data].
  destruct n as [| [| n]]; [reflexivity | contradiction | reflexivity].
Qed.

Lemma rotate_steps grm warp (t : Tensor) (angle center : pyobj) (r : Tensor) :
  outcome (rotate grm warp (PyTensor t) angle center) = inr r ->
  exists n a a' c' rm m,
    angle = PyTensor a /\ shape0 t = inr n /\ expand a [Z.of_nat n] = inr a' /\
    grm c' a' (ones_like a') = inr rm /\ slice_2x3 rm = inr m /\
    outcome (affine warp t m) = inr r.
Proof.
  unfold rotate. intros H.
  destruct angle as [| | | | a]; try discriminate H.
  cbn [is_tensor negb andb tensor_attr] in H. rewrite andb_false_r in H.
  unfold ok in H. rewrite bind_lift_ok in H.
  destruct (not_in_3_4 (length (shape t))); [discriminate H |].
  apply outcome_bind_inr in H. destruct H as (c0 & _ & H).
  rewrite bind_lift_ok in H.
  apply outcome_bind_inr in H. destruct H as (n & Hn & H).
  apply outcome_bind_inr in H. destruct H as (a' & Ha & H).
  apply outcome_bind_inr in H. destruct H as (c1 & _ & H).
  apply outcome_bind_inr in H. destruct H as (n' & _ & H).
  apply outcome_bind_inr in H. destruct H as (c' & _ & H).
  apply outcome_bind_inr in H. destruct H as (rm & Hrm & H).
  apply outcome_bind_inr in H. destruct H as (m & Hm & H).
  unfold _compute_rotation_matrix in Hrm.
  apply outcome_bind_inr in Hrm. destruct Hrm as (rm' & Hrm & Hret).
  cbn in Hn, Ha, Hm, Hrm, Hret. apply delegated_inr in Hrm.
  injection Hret as Hret. subst rm'.
  exists n, a, a', c', rm, m. repeat split; assumption.
Qed.

Lemma scale_steps grm warp (t : Tensor) (scale_factor center : pyobj) (r : Tensor) :
  outcome (scale grm warp (PyTensor t) scale_factor center) = inr r ->
  exists n s s' c' sm m,
    scale_factor = PyTensor s /\ shape0 t = inr n /\ expand s [Z.of_nat n] = inr s' /\
    grm c' (zeros_like s') s' = inr sm /\ slice_2x3 sm = inr m /\
    outcome (affine warp t m) = inr r.
Proof.
  unfold scale. intros H.
  destruct scale_factor as [| | | | s]; try discriminate H.
  cbn [is_tensor negb andb tensor_attr] in H.
  unfold ok in H. rewrite bind_lift_ok in H.
  apply outcome_bind_inr in H. destruct H as (c0 & _ & H).
  apply outcome_bind_inr in H. destruct H as (c1 & _ & H).
  apply outcome_bind_inr in H. destruct H as (n' & _ & H).
  apply outcome_bind_inr in H. destruct H as (c' & _ & H).
  rewrite bind_lift_ok in H.
  apply outcome_bind_inr in H. destruct H as (n & Hn & H).
  apply outcome_bind_inr in H. destruct H as (s' & Hs & H).
  apply outcome_bind_inr in H. destruct H as (sm & Hsm & H).
  apply outcome_bind_inr in H. destruct H as (m & Hm & H).
  unfold _compute_scaling_matrix in Hsm.
  apply outcome_bind_inr in Hsm. destruct Hsm as (sm' & Hsm & Hret).
  cbn in Hn, Hs, Hm, Hsm, Hret. apply delegated_inr in Hsm.
  injection Hret as Hret. subst sm'.
  exists n, s, s', c', sm, m. repeat split; assumption.
Qed.

(** An unbatched image reaches the warp as a batch of one, and the matrices
    built for it are as many as its channels. *)
Lemma affine_unbatched_mismatch warp (t m : Tensor) (C H W r c : nat) (out : Tensor) :
  shape t = [C; H; W] -> C <> 1 -> shape m = [C; r; c] ->
  outcome (affine warp t m) <> inr out.
Proof.
  intros Ht HC Hm Hout. apply affine_returns in Hout.
  destruct Hout as (b & m' & o & Hb & He & _).
  unfold batched, ndimension in Hb. rewrite Ht in Hb. cbn in Hb. injection Hb as <-.
  rewrite (expand_batch_to_one m C r c Hm HC) in He. discriminate He.
Qed.

Lemma right_angle_keeps_batch : rotation_keeps_batch right_angle_rotation_matrix2d.
Proof.
  intros center angle scale out n Ha H. unfold right_angle_rotation_matrix2d in H.
  rewrite Ha in H.
  repeat match type of H with
         | match ?x with _ => _ end = _ => destruct x eqn:?; try discriminate H
         | (if ?x then _ else _) = _ => destruct x eqn:?; try discriminate H
         end.
  injection H as <-.
  match goal with E : (_ =? n) && _ = true |- _ =>
    apply andb_true_iff in E; destruct E as [E _]; apply Nat.eqb_eq in E; subst end.
  exists 3, 3. reflexivity.
Qed.

(** C2, at an unbatched image. For an image of shape (C, H, W), [rotate] and
    [scale] expand the angle, the scale factor and the center to C entries,
    the number of channels: the rotation-matrix primitive is called with a
    (C, 2) center and C angles and scales. *)
Theorem unbatched_image_expands_to_channel_count :
  forall grm warp (t a a' : Tensor) (C H W : nat),
    shape t = [C; H; W] ->
    expand a [Z.of_nat C] = inr a' ->
    shape a' = [C] /\
    (exists rest,
        calls (rotate grm warp (PyTensor t) (PyTensor a) PyNone) =
        CallRotationMatrix
          (mkTensor [C; 2] (concat (repeat (plane_center (t_dtype t) H W) C)) (t_dtype t) (t_device t))
          a' (ones_like a') :: rest) /\
    (exists rest,
        calls (scale grm warp (PyTensor t) (PyTensor a) PyNone) =
        CallRotationMatrix
          (mkTensor [C; 2] (concat (repeat (plane_center (t_dtype t) H W) C)) (t_dtype t) (t_device t))
          (zeros_like a') a' :: rest).
Proof.
  intros grm warp t a a' C H W Hs Ha.
  assert (Hc := compute_tensor_center_eq t [C] H W Hs).
  assert (H0 : shape0 t = inr C) by (unfold shape0; rewrite Hs; reflexivity).
  split; [exact (expand_to_batch a a' C Ha) |]. split.
  - unfold rotate. cbn [is_tensor is_None negb andb tensor_attr]. unfold ok in *.
    rewrite bind_lift_ok. rewrite Hs. cbn [length not_in_3_4 Nat.eqb orb negb].
    rewrite Hc, !bind_lift_ok, bind_ret, bind_lift_ok.
    rewrite H0, bind_lift_ok, Ha, bind_lift_ok.
    cbn [tensor_attr]. unfold ok. rewrite !bind_lift_ok, expand_vector2. unfold ok.
    rewrite bind_lift_ok, calls_bind_eq.
    unfold _compute_rotation_matrix. rewrite calls_bind_eq. cbn [calls call_get_rotation_matrix2d fst app].
    eexists. reflexivity.
  - unfold scale. cbn [is_tensor is_None negb andb tensor_attr]. unfold ok in *.
    rewrite bind_lift_ok.
    rewrite Hc, !bind_lift_ok, bind_ret.
    cbn [tensor_attr]. unfold ok. rewrite bind_lift_ok.
    rewrite H0, bind_lift_ok, expand_vector2. unfold ok.
    rewrite !bind_lift_ok, Ha, bind_lift_ok, calls_bind_eq.
    unfold _compute_scaling_matrix. rewrite calls_bind_eq. cbn [calls call_get_rotation_matrix2d fst app].
    eexists. reflexivity.
Qed.

Lemma unbatched_image_expands_to_channel_count_witness :
  let t := ramp [3; 5; 5] in
  let angle := mkTensor [1] [0%Q] float32 cpu in
  let angles := mkTensor [3] [0%Q; 0%Q; 0%Q] float32 cpu in
  expand angle [3%Z] = inr angles /\
  (exists rest,
      calls (rotate right_angle_rotation_matrix2d nearest_warp_affine
               (PyTensor t) (PyTensor angle) PyNone) =
      CallRotationMatrix
        (mkTensor [3; 2] (concat (repeat (plane_center float32 5 5) 3)) float32 cpu)
        angles (ones_like angles) :: rest) /\
  outcome (rotate right_angle_rotation_matrix2d nearest_warp_affine
             (PyTensor t) (PyTensor angle) PyNone)
  = inl (Raise RuntimeError expand_msg (FShape [3; 2; 3])).
Proof.
  intros t angle angles.
  split; [reflexivity |].
  split; [| vm_compute; reflexivity].
  apply (proj1 (proj2 (unbatched_image_expands_to_channel_count
                         right_angle_rotation_matrix2d nearest_warp_affine
                         t angle angles 3 5 5 eq_refl eq_refl))).
Defined.

(** C8, at an unbatched image. With a rotation-matrix primitive that returns
    one matrix per angle, [rotate] does not return on an image of shape
    (C, H, W) with C other than 1, whatever the angle, zero included: the C
    matrices do not expand to the batch of one that [affine] makes of the
    image. *)
Theorem rotate_fails_on_unbatched_channels :
  forall grm warp,
    rotation_keeps_batch grm ->
    forall (t : Tensor) (C H W : nat) (angle center : pyobj) (r : Tensor),
      shape t = [C; H; W] -> C <> 1 ->
      outcome (rotate grm warp (PyTensor t) angle center) <> inr r.
Proof.
  intros grm warp Hgrm t C H W angle center r Hs HC Hout.
  apply rotate_steps in Hout.
  destruct Hout as (n & a & a' & c' & rm & m & _ & Hn & Ha & Hrm & Hm & Haff).
  unfold shape0 in Hn. rewrite Hs in Hn. injection Hn as <-.
  apply expand_to_batch in Ha.
  destruct (Hgrm _ _ _ _ _ Ha Hrm) as (rows & cols & Hshape).
  pose proof (slice_2x3_batch rm m C rows cols Hshape Hm) as Hmshape.
  exact (affine_unbatched_mismatch warp t m C H W _ _ r Hs HC Hmshape Haff).
Qed.

Lemma rotate_fails_on_unbatched_channels_witness :
  let t := ramp [3; 5; 5] in
  let angle := PyTensor (mkTensor [1] [0%Q] float32 cpu) in
  outcome (rotate right_angle_rotation_matrix2d nearest_warp_affine (PyTensor t) angle PyNone)
  = inl (Raise RuntimeError expand_msg (FShape [3; 2; 3])) /\
  outcome (rotate right_angle_rotation_matrix2d nearest_warp_affine (PyTensor t) angle PyNone)
  <> inr t.
Proof.
  intros t angle. split; [vm_compute; reflexivity |].
  apply (rotate_fails_on_unbatched_channels
           right_angle_rotation_matrix2d nearest_warp_affine right_angle_keeps_batch
           t 3 5 5 angle PyNone t eq_refl).
  discriminate.
Defined.

(** Rotation by zero degrees of a batched image, with the two instances of the
    collaborators: the image comes back as it went in. *)
Example rotate_zero_batched :
  let t := ramp [2; 3; 5; 5] in
  outcome (rotate right_angle_rotation_matrix2d nearest_warp_affine
             (PyTensor t) (PyTensor (mkTensor [1] [0%Q] float32 cpu)) PyNone)
  = inr t.
Proof. vm_compute. reflexivity. Qed.

(** ** The transform objects *)

(** C9. The constructors of [Rotate], [Translate] and [Scale] store whatever
    they are given and never fail; calling the object on an image is calling
    [rotate], [translate] or [scale] on that image with the stored
    parameters. *)
Theorem wrappers_defer_to_operations :
  forall grm warp,
    (forall angle center : pyobj,
        exists self,
          Rotate_init angle center = ([], inr self) /\
          Rotate_angle self = angle /\ Rotate_center self = center /\
          forall input, Rotate_forward grm warp self input = rotate grm warp input angle center) /\
    (forall translation : pyobj,
        exists self,
          Translate_init translation = ([], inr self) /\
          Translate_translation self = translation /\
          forall input, Translate_forward warp self input = translate warp input translation) /\
    (forall scale_factor center : pyobj,
        exists self,
          Scale_init scale_factor center = ([], inr self) /\
          Scale_scale_factor self = scale_factor /\ Scale_center self = center /\
          forall input,
            Scale_forward grm warp self input = scale grm warp input scale_factor center).
Proof.
  intros grm warp. split; [| split].
  - intros angle center. exists (mkRotate angle center). repeat split.
  - intros translation. exists (mkTranslate translation). repeat split.
  - intros scale_factor center. exists (mkScale scale_factor center). repeat split.
Qed.

Lemma wrappers_defer_to_operations_witness :
  exists self,
    Rotate_init (PyStr "a quarter turn") (PyInt 7) = ([], inr self) /\
    Rotate_forward right_angle_rotation_matrix2d nearest_warp_affine self (PyTensor (ramp [1; 2; 2]))
    = raise (Raise TypeError msg_angle (FType str_t)).
Proof.
  destruct (proj1 (wrappers_defer_to_operations
                     right_angle_rotation_matrix2d nearest_warp_affine)
              (PyStr "a quarter turn") (PyInt 7)) as (self & Hinit & _ & _ & Hcall).
  exists self. split; [exact Hinit |].
  rewrite Hcall. reflexivity.
Defined.

(** C10. The text of a [Rotate] is produced exactly when the stored angle is a
    tensor with one element, since it goes through [item]; with a tensor of
    any other size it raises.  The texts of [Translate] and [Scale] format what
    is stored and are always produced. *)
Theorem rotate_repr_needs_one_element :
  forall str,
    (forall self : Rotate,
        (exists s, Rotate_repr str self = inr s) <->
        (exists t, Rotate_angle self = PyTensor t /\ numel (shape t) = 1)) /\
    (forall (self : Rotate) (t : Tensor),
        Rotate_angle self = PyTensor t -> numel (shape t) <> 1 ->
        Rotate_repr str self = inl (Raise ValueError msg_item FNothing)) /\
    (forall self : Translate, exists s, Translate_repr str self = inr s) /\
    (forall self : Scale, exists s, Scale_repr str self = inr s).
Proof.
  intros str. split; [| split; [| split]].
  - intros [angle center]. unfold Rotate_repr. cbn [Rotate_angle Rotate_center]. split.
    + intros (s & H). destruct angle as [| | | | t]; try discriminate H.
      exists t. split; [reflexivity |].
      cbn [tensor_attr rbind ok] in H. unfold item in H.
      destruct (Nat.eqb_spec (numel (shape t)) 1); [assumption | discriminate H].
    + intros (t & -> & Hone). cbn [tensor_attr rbind ok]. unfold item.
      rewrite Hone. cbn [Nat.eqb rbind ok]. eexists. reflexivity.
  - intros [angle center] t Hangle Hmany. cbn [Rotate_angle] in Hangle. subst angle.
    unfold Rotate_repr. cbn [Rotate_angle tensor_attr rbind ok]. unfold item.
    destruct (Nat.eqb_spec (numel (shape t)) 1); [contradiction | reflexivity].
  - intros self. unfold Translate_repr. eexists. reflexivity.
  - intros self. unfold Scale_repr. eexists. reflexivity.
Qed.

Lemma rotate_repr_needs_one_element_witness :
  let batched_angle := PyTensor (mkTensor [2] [0%Q; 90%Q] float32 cpu) in
  let single_angle := PyTensor (mkTensor [1] [90%Q] float32 cpu) in
  Rotate_repr render (mkRotate batched_angle PyNone) = inl (Raise ValueError msg_item FNothing) /\
  Rotate_repr render (mkRotate single_angle PyNone) = inr "Rotate(angle=<float>, center=None)" /\
  Translate_repr render (mkTranslate batched_angle) = inr "Translate(translation=tensor(...))" /\
  (exists s, Rotate_repr render (mkRotate single_angle PyNone) = inr s).
Proof.
  intros batched_angle single_angle.
  split.
  { apply (proj1 (proj2 (rotate_repr_needs_one_element render))
             (mkRotate batched_angle PyNone) (mkTensor [2] [0%Q; 90%Q] float32 cpu)).
    - reflexivity.
    - cbn. lia. }
  split; [reflexivity |]. split; [reflexivity |].
  apply (proj2 (proj1 (rotate_repr_needs_one_element render) (mkRotate single_angle PyNone))).
  exists (mkTensor [1] [90%Q] float32 cpu). split; reflexivity.
Defined.

(** ** Checks, calls and their order *)

Lemma bind_emit_ok {A B} (l : list event) (a : A) (f : A -> py B) :
  bind (l, inr a) f = (l ++ fst (f a), snd (f a)).
Proof. reflexivity. Qed.

Lemma bind_emit_err {A B} (l : list event) (e : exn) (f : A -> py B) :
  bind (l, inl e) f = (l, inl e).
Proof. reflexivity. Qed.

(** X1. The first argument is checked first: anything that is not a tensor is
    refused with the type error that carries its type, by the three
    operations, whatever the other arguments are and before any call; the
    second argument is checked next, in the same way. *)
Theorem type_checks_come_first :
  forall grm warp (tensor other center : pyobj),
    (is_tensor tensor = false ->
     rotate grm warp tensor other center
     = ([], inl (Raise TypeError msg_tensor (FType (type tensor)))) /\
     translate warp tensor other
     = ([], inl (Raise TypeError msg_tensor (FType (type tensor)))) /\
     scale grm warp tensor other center
     = ([], inl (Raise TypeError msg_tensor (FType (type tensor))))) /\
    (is_tensor tensor = true -> is_tensor other = false ->
     rotate grm warp tensor other center
     = ([], inl (Raise TypeError msg_angle (FType (type other)))) /\
     translate warp tensor other
     = ([], inl (Raise TypeError msg_translation (FType (type other)))) /\
     scale grm warp tensor other center
     = ([], inl (Raise TypeError msg_scale_factor (FType (type other))))).
Proof.
  intros grm warp tensor other center. split.
  - intros Ht. unfold rotate, translate, scale. rewrite Ht. repeat split.
  - intros Ht Ho. unfold rotate, translate, scale. rewrite Ht, Ho. repeat split.
Qed.

Lemma type_checks_come_first_witness :
  rotate right_angle_rotation_matrix2d nearest_warp_affine (PyStr "image") (PyInt 90) PyNone
  = ([], inl (Raise TypeError msg_tensor (FType str_t))) /\
  scale right_angle_rotation_matrix2d nearest_warp_affine
    (PyTensor (ramp [1; 2; 2])) (PyFloat 2) PyNone
  = ([], inl (Raise TypeError msg_scale_factor (FType float_t))).
Proof.
  split.
  - apply (proj1 (type_checks_come_first right_angle_rotation_matrix2d nearest_warp_affine
                    (PyStr "image") (PyInt 90) PyNone)).
    reflexivity.
  - apply (proj2 (type_checks_come_first right_angle_rotation_matrix2d nearest_warp_affine
                    (PyTensor (ramp [1; 2; 2])) (PyFloat 2) PyNone)); reflexivity.
Defined.

(** The calls [affine] makes: none, or one call to the warp. *)
Lemma affine_calls_list warp (t m : Tensor) :
  calls (affine warp t m) = [] \/
  exists m', expand m [Z.of_nat (hd 0 (shape (batched t))); (-1)%Z; (-1)%Z] = inr m' /\
             calls (affine warp t m) = [CallWarp (batched t) m' (lastn 2 (shape (batched t)))].
Proof.
  unfold affine. fold (batched t).
  destruct (shape0 (batched t)) as [e | b] eqn:Hb; [left; reflexivity |].
  rewrite bind_lift_ok.
  assert (Hhd : hd 0 (shape (batched t)) = b).
  { unfold shape0 in Hb. destruct (shape (batched t)); [discriminate Hb |].
    injection Hb as <-. reflexivity. }
  rewrite Hhd.
  destruct (expand m [Z.of_nat b; (-1)%Z; (-1)%Z]) as [e | m'] eqn:Hm; [left; reflexivity |].
  rewrite bind_lift_ok. right. exists m'. split; [reflexivity |].
  unfold call_warp_affine.
  destruct (warp (batched t) m' (lastn 2 (shape (batched t)))); reflexivity.
Qed.

Lemma rotation_then_warp_lift {A B} (r : result A) (f : A -> py B) :
  (forall a, rotation_then_warp (calls (f a))) ->
  rotation_then_warp (calls (bind (lift r) f)).
Proof.
  intros H. destruct r as [e | a]; [left; reflexivity |].
  rewrite bind_lift_ok. apply H.
Qed.

Lemma rotation_then_warp_tail grm warp (t c a s : Tensor) :
  rotation_then_warp
    (calls (rotation_matrix <- (matrix <- call_get_rotation_matrix2d grm c a s ;; ret matrix) ;;
            m <- lift (slice_2x3 rotation_matrix) ;;
            affine warp t m)).
Proof.
  unfold call_get_rotation_matrix2d.
  destruct (grm c a s) as [e | rm]; cbn [delegated].
  - rewrite bind_emit_err. right. left. exists c, a, s. reflexivity.
  - rewrite bind_emit_ok. cbn [ret fst snd app]. rewrite bind_emit_ok. cbn [calls fst app].
    destruct (slice_2x3 rm) as [e | m].
    + right. left. exists c, a, s. reflexivity.
    + rewrite bind_lift_ok.
      destruct (affine_calls_list warp t m) as [H | (m' & _ & H)];
        unfold calls in H; rewrite H.
      * right. left. exists c, a, s. reflexivity.
      * right. right. do 6 eexists. reflexivity.
Qed.

(** X2. [rotate] and [scale] call the rotation-matrix primitive at most once and
    the warp at most once, the warp after the primitive; [translate] never
    calls the rotation-matrix primitive and calls the warp at most once. *)
Theorem collaborators_are_called_in_order :
  forall grm warp (tensor other center : pyobj),
    rotation_then_warp (calls (rotate grm warp tensor other center)) /\
    rotation_then_warp (calls (scale grm warp tensor other center)) /\
    (calls (translate warp tensor other) = [] \/
     exists src m d, calls (translate warp tensor other) = [CallWarp src m d]).
Proof.
  intros grm warp tensor other center. split; [| split].
  - unfold rotate.
    destruct (negb (is_tensor tensor)); [left; reflexivity |].
    destruct (negb (is_tensor other)); [left; reflexivity |].
    cbn [andb]. rewrite andb_false_r.
    apply rotation_then_warp_lift. intros t.
    destruct (not_in_3_4 (length (shape t))); [left; reflexivity |].
    assert (Hc : forall k : pyobj -> py Tensor,
               (forall x, rotation_then_warp (calls (k x))) ->
               rotation_then_warp
                 (calls (bind (if is_None center
                               then c <- lift (_compute_tensor_center t) ;; ret (PyTensor c)
                               else ret center) k))).
    { intros k Hk. destruct (is_None center).
      - destruct (_compute_tensor_center t) as [e | c]; [left; reflexivity |].
        rewrite bind_lift_ok, bind_ret. apply Hk.
      - rewrite bind_ret. apply Hk. }
    apply Hc. intros c0.
    do 5 (apply rotation_then_warp_lift; intros ?).
    apply rotation_then_warp_lift. intros c2.
    apply rotation_then_warp_tail.
  - unfold scale.
    destruct (negb (is_tensor tensor)); [left; reflexivity |].
    destruct (negb (is_tensor other)); [left; reflexivity |].
    apply rotation_then_warp_lift. intros t.
    assert (Hc : forall k : pyobj -> py Tensor,
               (forall x, rotation_then_warp (calls (k x))) ->
               rotation_then_warp
                 (calls (bind (if is_None center
                               then c <- lift (_compute_tensor_center t) ;; ret (PyTensor c)
                               else ret center) k))).
    { intros k Hk. destruct (is_None center).
      - destruct (_compute_tensor_center t) as [e | c]; [left; reflexivity |].
        rewrite bind_lift_ok, bind_ret. apply Hk.
      - rewrite bind_ret. apply Hk. }
    apply Hc. intros c0.
    do 5 (apply rotation_then_warp_lift; intros ?).
    apply rotation_then_warp_lift. intros s1.
    apply rotation_then_warp_tail.
  - unfold translate.
    destruct (negb (is_tensor tensor)); [left; reflexivity |].
    destruct (negb (is_tensor other)); [left; reflexivity |].
    destruct (tensor_attr tensor "shape") as [e | t]; [left; reflexivity |].
    rewrite bind_lift_ok.
    destruct (not_in_3_4 (length (shape t))); [left; reflexivity |].
    destruct (tensor_attr other "device") as [e | tr]; [left; reflexivity |].
    rewrite bind_lift_ok.
    destruct (_compute_translation_matrix tr) as [e | tm]; [left; reflexivity |].
    rewrite bind_lift_ok.
    destruct (slice_2x3 tm) as [e | m]; [left; reflexivity |].
    rewrite bind_lift_ok.
    destruct (affine_calls_list warp t m) as [H | (m' & _ & H)]; [left; exact H |].
    right. do 3 eexists. exact H.
Qed.

(** X3. An error of the module's own, a type error or the shape error, is raised
    before anything is asked of a collaborator. *)
Theorem module_errors_precede_calls :
  forall grm warp (tensor other center : pyobj) (e : exn),
    module_error e = true ->
    (outcome (rotate grm warp tensor other center) = inl e ->
     calls (rotate grm warp tensor other center) = []) /\
    (outcome (translate warp tensor other) = inl e ->
     calls (translate warp tensor other) = []) /\
    (outcome (scale grm warp tensor other center) = inl e ->
     calls (scale grm warp tensor other center) = []).
Proof.
  intros grm warp tensor other center e He.
  destruct tensor as [| | | | t]; try (repeat split; reflexivity).
  destruct other as [| | | | a]; try (repeat split; reflexivity).
  split; [| split]; intros H.
  - destruct (not_in_3_4 (ndimension t)) eqn:Hr.
    + rewrite rotate_bad_rank by exact Hr. reflexivity.
    + apply (quiet_rotate grm warp t a center Hr) in H. congruence.
  - destruct (not_in_3_4 (ndimension t)) eqn:Hr.
    + rewrite translate_bad_rank by exact Hr. reflexivity.
    + apply (quiet_translate warp t a Hr) in H. congruence.
  - apply (quiet_scale grm warp t a center) in H. congruence.
Qed.

Lemma module_errors_precede_calls_witness :
  let call := rotate right_angle_rotation_matrix2d nearest_warp_affine
                (PyTensor (ramp [4; 4])) (PyTensor (ramp [1])) PyNone in
  outcome call = inl (Raise ValueError msg_shape (FShape [4; 4])) /\ calls call = [].
Proof.
  intro call. split; [reflexivity |].
  apply (proj1 (module_errors_precede_calls right_angle_rotation_matrix2d nearest_warp_affine
                  (PyTensor (ramp [4; 4])) (PyTensor (ramp [1])) PyNone
                  (Raise ValueError msg_shape (FShape [4; 4])) eq_refl)).
  reflexivity.
Defined.

Lemma expand_to_rows (c c' : Tensor) (n : nat) :
  expand c [Z.of_nat n; (-1)%Z] = inr c' -> exists k, shape c' = [n; k].
Proof.
  unfold expand, ndimension, throw, ok.
  destruct (shape c) as [| s [| s' [| s'' l]]]; cbn -[Z.of_nat expand_data expand_dim]; intros H.
  - destruct (Z.of_nat n <? 0)%Z; discriminate H.
  - destruct (Z.ltb_spec (Z.of_nat n) 0); [lia |]. cbn -[Z.of_nat expand_data expand_dim] in H.
    rewrite expand_dim_one, expand_dim_keep in H. injection H as <-. eexists; reflexivity.
  - rewrite expand_dim_keep in H. unfold expand_dim in H.
    destruct (Z.eqb_spec (Z.of_nat n) (-1)); [lia |].
    destruct (Z.ltb_spec (Z.of_nat n) 0); [lia |].
    rewrite Nat2Z.id in H.
    destruct (Nat.eqb_spec n s); [subst; injection H as <-; eexists; reflexivity |].
    destruct (s =? 1); [injection H as <-; eexists; reflexivity | discriminate H].
  - discriminate H.
Qed.

Ltac no_call H := exfalso; exact (calls_raise _ _ H).

Lemma rotation_tail_inv grm warp (t a' c' c a s : Tensor) :
  In (CallRotationMatrix c a s)
     (calls (rotation_matrix <- _compute_rotation_matrix grm a' c' ;;
             m <- lift (slice_2x3 rotation_matrix) ;;
             affine warp t m)) ->
  c = c' /\ a = a' /\ s = ones_like a'.
Proof.
  intros Hin. apply calls_bind in Hin. destruct Hin as [Hin | (rm & _ & Hin)].
  - unfold _compute_rotation_matrix in Hin.
    apply calls_bind in Hin. destruct Hin as [Hin | (rm & _ & [])].
    cbn in Hin. destruct Hin as [Hin | []]. injection Hin as <- <- <-.
    repeat split.
  - apply calls_bind in Hin. destruct Hin as [[] | (m & _ & Hin)].
    apply affine_calls in Hin. destruct Hin as (m' & Hin). discriminate Hin.
Qed.

Lemma scaling_tail_inv grm warp (t s' c' c a s : Tensor) :
  In (CallRotationMatrix c a s)
     (calls (scaling_matrix <- _compute_scaling_matrix grm s' c' ;;
             m <- lift (slice_2x3 scaling_matrix) ;;
             affine warp t m)) ->
  c = c' /\ a = zeros_like s' /\ s = s'.
Proof.
  intros Hin. apply calls_bind in Hin. destruct Hin as [Hin | (rm & _ & Hin)].
  - unfold _compute_scaling_matrix in Hin.
    apply calls_bind in Hin. destruct Hin as [Hin | (rm & _ & [])].
    cbn in Hin. destruct Hin as [Hin | []]. injection Hin as <- <- <-.
    repeat split.
  - apply calls_bind in Hin. destruct Hin as [[] | (m & _ & Hin)].
    apply affine_calls in Hin. destruct Hin as (m' & Hin). discriminate Hin.
Qed.

(** The call [rotate] makes to the rotation-matrix primitive, read back from
    the trace. *)
Lemma rotate_call_inv grm warp (tensor angle center : pyobj) (c a s : Tensor) :
  In (CallRotationMatrix c a s) (calls (rotate grm warp tensor angle center)) ->
  exists t a0 c0 n,
    tensor = PyTensor t /\ angle = PyTensor a0 /\ shape0 t = inr n /\
    expand a0 [Z.of_nat n] = inr a /\ expand c0 [Z.of_nat n; (-1)%Z] = inr c /\
    s = ones_like a /\
    (if is_None center then _compute_tensor_center t = inr c0 else center = PyTensor c0).
Proof.
  intros Hin. unfold rotate in Hin.
  destruct tensor as [| | | | t]; try no_call Hin.
  destruct angle as [| | | | a0]; try no_call Hin.
  cbn [is_tensor negb andb tensor_attr] in Hin. rewrite andb_false_r in Hin.
  unfold ok in Hin. rewrite bind_lift_ok in Hin.
  destruct (not_in_3_4 (length (shape t))); [no_call Hin |].
  destruct center as [| z | q | str0 | c0]; cbn [is_None] in Hin |- *;
    [step_in Hin; [no_call Hin |] | | | | ];
    rewrite bind_ret, bind_lift_ok in Hin;
    (step_in Hin; [no_call Hin |]);
    (step_in Hin; [no_call Hin |]);
    cbn [tensor_attr] in Hin; try no_call Hin;
    unfold ok in Hin; rewrite !bind_lift_ok in Hin;
    (step_in Hin; [no_call Hin |]);
    apply rotation_tail_inv in Hin; destruct Hin as (-> & -> & ->);
    do 4 eexists; repeat split; eassumption.
Qed.

Lemma scale_call_inv grm warp (tensor scale_factor center : pyobj) (c a s : Tensor) :
  In (CallRotationMatrix c a s) (calls (scale grm warp tensor scale_factor center)) ->
  exists t s0 c0 n,
    tensor = PyTensor t /\ scale_factor = PyTensor s0 /\ shape0 t = inr n /\
    expand s0 [Z.of_nat n] = inr s /\ expand c0 [Z.of_nat n; (-1)%Z] = inr c /\
    a = zeros_like s /\
    (if is_None center then _compute_tensor_center t = inr c0 else center = PyTensor c0).
Proof.
  intros Hin. unfold scale in Hin.
  destruct tensor as [| | | | t]; try no_call Hin.
  destruct scale_factor as [| | | | s0]; try no_call Hin.
  cbn [is_tensor negb andb tensor_attr] in Hin.
  unfold ok in Hin. rewrite bind_lift_ok in Hin.
  destruct center as [| z | q | str0 | c0]; cbn [is_None] in Hin |- *;
    [step_in Hin; [no_call Hin |] | | | | ];
    rewrite bind_ret in Hin;
    cbn [tensor_attr] in Hin; try no_call Hin;
    unfold ok in Hin; rewrite bind_lift_ok in Hin;
    (step_in Hin; [no_call Hin |]);
    (step_in Hin; [no_call Hin |]);
    rewrite !bind_lift_ok in Hin;
    (step_in Hin; [no_call Hin |]);
    apply scaling_tail_inv in Hin; destruct Hin as (-> & -> & ->);
    do 4 eexists; repeat split; eassumption.
Qed.

(** X4. [rotate] asks for a rotation with unit scale and [scale] for a scaling
    with zero angle: in the call to the rotation-matrix primitive the angles
    (the scales) are as many as the leading size of the tensor, the other of
    the two is all ones (all zeros), and the centers are as many rows. *)
Theorem rotations_unscaled_scalings_unrotated :
  forall grm warp (tensor other center : pyobj) (c a s : Tensor),
    (In (CallRotationMatrix c a s) (calls (rotate grm warp tensor other center)) ->
     exists t n k,
       tensor = PyTensor t /\ shape0 t = inr n /\
       shape a = [n] /\ shape c = [n; k] /\
       s = mkTensor [n] (repeat 1%Q n) (t_dtype a) (t_device a)) /\
    (In (CallRotationMatrix c a s) (calls (scale grm warp tensor other center)) ->
     exists t n k,
       tensor = PyTensor t /\ shape0 t = inr n /\
       shape s = [n] /\ shape c = [n; k] /\
       a = mkTensor [n] (repeat 0%Q n) (t_dtype s) (t_device s)).
Proof.
  intros grm warp tensor other center c a s. split; intros Hin.
  - apply rotate_call_inv in Hin.
    destruct Hin as (t & a0 & c0 & n & -> & _ & Hn & Ha & Hc & -> & _).
    apply expand_to_batch in Ha. apply expand_to_rows in Hc. destruct Hc as (k & Hc).
    exists t, n, k. repeat split; try assumption.
    unfold ones_like. rewrite Ha. cbn [numel fold_right]. rewrite Nat.mul_1_r. reflexivity.
  - apply scale_call_inv in Hin.
    destruct Hin as (t & s0 & c0 & n & -> & _ & Hn & Hs & Hc & -> & _).
    apply expand_to_batch in Hs. apply expand_to_rows in Hc. destruct Hc as (k & Hc).
    exists t, n, k. repeat split; try assumption.
    unfold zeros_like. rewrite Hs. cbn [numel fold_right]. rewrite Nat.mul_1_r. reflexivity.
Qed.

Lemma rotations_unscaled_scalings_unrotated_witness :
  let t := ramp [2; 1; 3; 3] in
  let factor := mkTensor [1] [2%Q] float32 cpu in
  let call := CallRotationMatrix
                (mkTensor [2; 2] [1%Q; 1%Q; 1%Q; 1%Q] float32 cpu)
                (mkTensor [2] [0%Q; 0%Q] float32 cpu)
                (mkTensor [2] [2%Q; 2%Q] float32 cpu) in
  In call (calls (scale right_angle_rotation_matrix2d nearest_warp_affine
                    (PyTensor t) (PyTensor factor) PyNone)) /\
  exists t' n k,
    PyTensor t = PyTensor t' /\ shape0 t' = inr n /\
    shape (mkTensor [2] [2%Q; 2%Q] float32 cpu) = [n] /\
    shape (mkTensor [2; 2] [1%Q; 1%Q; 1%Q; 1%Q] float32 cpu) = [n; k] /\
    mkTensor [2] [0%Q; 0%Q] float32 cpu = mkTensor [n] (repeat 0%Q n) float32 cpu.
Proof.
  intros t factor call.
  assert (Hin : In call (calls (scale right_angle_rotation_matrix2d nearest_warp_affine
                                  (PyTensor t) (PyTensor factor) PyNone)))
    by (left; vm_compute; reflexivity).
  split; [exact Hin |].
  exact (proj2 (rotations_unscaled_scalings_unrotated
                  right_angle_rotation_matrix2d nearest_warp_affine
                  (PyTensor t) (PyTensor factor) PyNone _ _ _) Hin).
Defined.



(** X6. With a rotation-matrix primitive that returns one matrix per scale,
    [scale] does not return on an image of shape (C, H, W) with C other than
    1: the C matrices do not expand to the batch of one that [affine] makes of
    the image. *)
Theorem scale_fails_on_unbatched_channels :
  forall grm warp,
    rotation_keeps_batch grm ->
    forall (t : Tensor) (C H W : nat) (scale_factor center : pyobj) (r : Tensor),
      shape t = [C; H; W] -> C <> 1 ->
      outcome (scale grm warp (PyTensor t) scale_factor center) <> inr r.
Proof.
  intros grm warp Hgrm t C H W sf center r Hs HC Hout.
  apply scale_steps in Hout.
  destruct Hout as (n & s & s' & c' & sm & m & _ & Hn & Hexp & Hsm & Hm & Haff).
  unfold shape0 in Hn. rewrite Hs in Hn. injection Hn as <-.
  apply expand_to_batch in Hexp.
  assert (Hz : shape (zeros_like s') = [C]) by exact Hexp.
  destruct (Hgrm _ _ _ _ _ Hz Hsm) as (rows & cols & Hshape).
  pose proof (slice_2x3_batch sm m C rows cols Hshape Hm) as Hmshape.
  exact (affine_unbatched_mismatch warp t m C H W _ _ r Hs HC Hmshape Haff).
Qed.

Lemma scale_fails_on_unbatched_channels_witness :
  let t := ramp [3; 4; 4] in
  let factor := PyTensor (mkTensor [1] [1%Q] float32 cpu) in
  outcome (scale right_angle_rotation_matrix2d nearest_warp_affine (PyTensor t) factor PyNone)
  = inl (Raise RuntimeError expand_msg (FShape [3; 2; 3])) /\
  outcome (scale right_angle_rotation_matrix2d nearest_warp_affine (PyTensor t) factor PyNone)
  <> inr t.
Proof.
  intros t factor. split; [vm_compute; reflexivity |].
  apply (scale_fails_on_unbatched_channels
           right_angle_rotation_matrix2d nearest_warp_affine right_angle_keeps_batch
           t 3 4 4 factor PyNone t eq_refl).
  discriminate.
Defined.

(** ** Edges of the builders and of the applier *)

Lemma expand_batch_mismatch (m : Tensor) (b n r c : nat) :
  shape m = [n; r; c] -> n <> b -> n <> 1 ->
  expand m [Z.of_nat b; (-1)%Z; (-1)%Z] = inl (Raise RuntimeError expand_msg (FShape (shape m))).
Proof.
  intros Hs Hb H1. unfold expand, ndimension, throw. rewrite Hs.
  cbn -[expand_data expand_dim Z.of_nat].
  assert (Hd : expand_dim n (Z.of_nat b) = None).
  { unfold expand_dim.
    destruct (Z.eqb_spec (Z.of_nat b) (-1)); [lia |].
    destruct (Z.ltb_spec (Z.of_nat b) 0); [lia |].
    rewrite Nat2Z.id.
    destruct (Nat.eqb_spec b n); [congruence |].
    destruct (Nat.eqb_spec n 1); [contradiction | reflexivity]. }
  rewrite Hd. reflexivity.
Qed.

(** X7. [affine] broadcasts the matrix over the batch and nothing more: a batch of
    matrices that is neither of size one nor of the size of the batch of
    images, which is one for an unbatched image, is refused by [expand] and
    the warp is not called. *)
Theorem affine_refuses_other_batches :
  forall warp (t m : Tensor) (n r c : nat),
    shape m = [n; r; c] -> n <> 1 ->
    (forall B C H W, shape t = [B; C; H; W] -> n <> B ->
       affine warp t m = ([], inl (Raise RuntimeError expand_msg (FShape [n; r; c])))) /\
    (forall C H W, shape t = [C; H; W] ->
       affine warp t m = ([], inl (Raise RuntimeError expand_msg (FShape [n; r; c])))).
Proof.
  intros warp t m n r c Hm H1. split.
  - intros B C H W Ht HB. unfold affine, ndimension, shape0. rewrite Ht.
    cbn [length Nat.eqb]. rewrite Ht, bind_lift_ok.
    rewrite (expand_batch_mismatch m B n r c Hm HB H1), Hm. reflexivity.
  - intros C H W Ht. unfold affine, ndimension, shape0. rewrite Ht.
    cbn [length Nat.eqb unsqueeze0 shape]. rewrite bind_lift_ok.
    rewrite (expand_batch_mismatch m 1 n r c Hm H1 H1), Hm. reflexivity.
Qed.

Lemma affine_refuses_other_batches_witness :
  let m := mkTensor [2; 2; 3] (repeat 0%Q 12) float32 cpu in
  affine nearest_warp_affine (ramp [3; 1; 2; 2]) m
  = ([], inl (Raise RuntimeError expand_msg (FShape [2; 2; 3]))) /\
  affine nearest_warp_affine (ramp [1; 2; 2]) m
  = ([], inl (Raise RuntimeError expand_msg (FShape [2; 2; 3]))).
Proof.
  intro m. split.
  - apply (proj1 (affine_refuses_other_batches nearest_warp_affine (ramp [3; 1; 2; 2]) m 2 2 3
                    eq_refl ltac:(discriminate)) 3 1 2 2 eq_refl).
    discriminate.
  - apply (proj2 (affine_refuses_other_batches nearest_warp_affine (ramp [1; 2; 2]) m 2 2 3
                    eq_refl ltac:(discriminate)) 1 2 2 eq_refl).
Defined.

(** X8. A tensor with fewer than two dimensions has no plane: the height and the
    width cannot be unpacked, and [scale], which has no rank check, raises
    that error, a ValueError other than the shape error, when it is left to
    compute the center, before any call. *)
Theorem center_needs_two_dimensions :
  forall grm warp (t sf : Tensor),
    ndimension t < 2 ->
    _compute_tensor_center t = inl (Raise ValueError msg_unpack (FCount (ndimension t))) /\
    scale grm warp (PyTensor t) (PyTensor sf) PyNone
    = ([], inl (Raise ValueError msg_unpack (FCount (ndimension t)))).
Proof.
  intros grm warp t sf Hr.
  assert (Hc : _compute_tensor_center t
               = inl (Raise ValueError msg_unpack (FCount (ndimension t)))).
  { unfold _compute_tensor_center, ndimension in *.
    destruct (shape t) as [| h [| w l]]; cbn in Hr; try lia; reflexivity. }
  split; [exact Hc |].
  unfold scale. cbn [is_tensor is_None negb tensor_attr]. unfold ok.
  rewrite bind_lift_ok, Hc. reflexivity.
Qed.

Lemma center_needs_two_dimensions_witness :
  let t := ramp [4] in
  let sf := mkTensor [1] [2%Q] float32 cpu in
  _compute_tensor_center t = inl (Raise ValueError msg_unpack (FCount 1)) /\
  scale right_angle_rotation_matrix2d nearest_warp_affine (PyTensor t) (PyTensor sf) PyNone
  = ([], inl (Raise ValueError msg_unpack (FCount 1))).
Proof.
  intros t sf.
  apply (center_needs_two_dimensions right_angle_rotation_matrix2d nearest_warp_affine t sf).
  cbn. lia.
Defined.

Lemma expand_wide_column (v : Tensor) (b k : nat) :
  shape v = [b; k] -> k <> 1 ->
  expand v [Z.of_nat b; 1%Z] = inl (Raise RuntimeError expand_msg (FShape [b; k])).
Proof.
  intros Hs Hk. unfold expand, ndimension, throw. rewrite Hs.
  cbn -[expand_data expand_dim Z.of_nat].
  rewrite expand_dim_same.
  assert (Hd : expand_dim k 1 = None).
  { unfold expand_dim. cbn. destruct k as [| [| k]]; [reflexivity | contradiction | reflexivity]. }
  rewrite Hd. reflexivity.
Qed.

(** X9. The translation has to be two numbers wide, though no check says so: a
    single column fails when dx and dy are unpacked, three columns or more
    fail at the first in-place addition, and a tensor without dimensions has
    no leading size.  [translate] passes the failure on without calling the
    warp. *)
Theorem translation_must_be_two_wide :
  forall warp (t tr : Tensor) (B : nat),
    (shape tr = [B; 1] ->
     _compute_translation_matrix tr = inl (Raise ValueError msg_unpack (FCount 1))) /\
    (forall n, shape tr = [B; n] -> 3 <= n ->
       _compute_translation_matrix tr
       = inl (Raise RuntimeError expand_msg (FShape [B; (n + 1) / 2]))) /\
    (shape tr = [] ->
     _compute_translation_matrix tr
     = inl (Raise IndexError "tuple index out of range" FNothing)) /\
    (forall e, _compute_translation_matrix tr = inl e ->
       ndimension t = 3 \/ ndimension t = 4 ->
       translate warp (PyTensor t) (PyTensor tr) = ([], inl e)).
Proof.
  intros warp t tr B. split; [| split; [| split]].
  - intros Hs. unfold _compute_translation_matrix, shape0. rewrite Hs.
    cbn [rbind ok]. rewrite tensor_repeat_eye. cbn [rbind ok].
    unfold chunk2. rewrite Hs. reflexivity.
  - intros n Hs Hn. unfold _compute_translation_matrix, shape0. rewrite Hs.
    cbn [rbind ok]. rewrite tensor_repeat_eye. cbn [rbind ok].
    unfold chunk2. rewrite Hs. cbn [rev app].
    destruct (Nat.eqb_spec n 1); [lia |].
    cbn [rbind ok unpack2]. unfold iadd_cell. cbn [shape].
    rewrite (expand_wide_column _ B ((n + 1) / 2)); [reflexivity | reflexivity |].
    assert (2 <= (n + 1) / 2) by (apply Nat.div_le_lower_bound; lia). lia.
  - intros Hs. unfold _compute_translation_matrix, shape0. rewrite Hs. reflexivity.
  - intros e He Hrank. apply not_in_3_4_false in Hrank.
    unfold translate. cbn [is_tensor negb tensor_attr]. unfold ok.
    rewrite bind_lift_ok. fold (ndimension t). rewrite Hrank, bind_lift_ok, He.
    reflexivity.
Qed.

Lemma translation_must_be_two_wide_witness :
  let wide := mkTensor [1; 3] [1%Q; 2%Q; 3%Q] float32 cpu in
  _compute_translation_matrix wide
  = inl (Raise RuntimeError expand_msg (FShape [1; 2])) /\
  translate nearest_warp_affine (PyTensor (ramp [1; 2; 2])) (PyTensor wide)
  = ([], inl (Raise RuntimeError expand_msg (FShape [1; 2]))).
Proof.
  intro wide.
  pose proof (translation_must_be_two_wide nearest_warp_affine (ramp [1; 2; 2]) wide 1)
    as (_ & Hwide & _ & Hpass).
  assert (H : _compute_translation_matrix wide
              = inl (Raise RuntimeError expand_msg (FShape [1; 2])))
    by (apply (Hwide 3); [reflexivity | lia]).
  split; [exact H |].
  apply Hpass; [exact H | left; reflexivity].
Defined.

(** X10. A translation given as a flat pair is read as a batch of two: the builder
    returns two matrices, each with the whole pair as its offset. *)
Theorem flat_translation_gives_two_matrices :
  forall (dx dy : Q) (dt : dtype) (dev : device),
    _compute_translation_matrix (mkTensor [2] [dx; dy] dt dev)
    = ok (mkTensor [2; 3; 3]
            (translation_entries dx dy ++ translation_entries dx dy) dt dev).
Proof.
  intros dx dy dt dev. unfold _compute_translation_matrix.
  cbv -[Qplus]. rewrite !Qplus_zero_l. reflexivity.
Qed.

(** ** What reaches the warp *)

Lemma length_translation_rows (b : nat) (d : list Q) :
  length d = 2 * b -> length (translation_rows d) = 6 * b.
Proof.
  revert d. induction b as [| b IH]; intros d Hd.
  - destruct d; [reflexivity | discriminate].
  - destruct d as [| x [| y d]]; cbn in Hd; try lia.
    cbn [translation_rows app length]. rewrite (IH d) by lia. lia.
Qed.

Lemma concat_map_blocks {A} (f : list A -> list A) (n k : nat) (d : list A) :
  (forall l, length l = k -> f l = l) ->
  length d = n * k ->
  concat (map f (blocks n k d)) = d.
Proof.
  intros Hf. revert d. induction n as [| n IH]; intros d Hd.
  - destruct d; [reflexivity | discriminate].
  - cbn [blocks map concat].
    rewrite Hf by (rewrite length_firstn; cbn in Hd; lia).
    rewrite IH by (rewrite length_skipn; cbn in Hd; lia).
    apply firstn_skipn.
Qed.

(** Reading a buffer at its own shape returns it. *)
Lemma expand_data_same (sh : list nat) (d : list Q) :
  length d = numel sh -> expand_data sh sh d = d.
Proof.
  revert d. induction sh as [| s sh IH]; intros d Hd; [reflexivity |].
  cbn [expand_data]. rewrite Nat.eqb_refl.
  apply concat_map_blocks; [exact IH | exact Hd].
Qed.

Lemma expand_matrices_same (m : Tensor) (b r c : nat) :
  shape m = [b; r; c] -> well_formed m ->
  expand m [Z.of_nat b; (-1)%Z; (-1)%Z] = ok m.
Proof.
  intros Hs Hwf. unfold expand, ndimension. rewrite Hs.
  cbn -[expand_data expand_dim Z.of_nat].
  rewrite expand_dim_same, !expand_dim_keep.
  rewrite expand_data_same by (unfold well_formed in Hwf; rewrite Hs in Hwf; exact Hwf).
  destruct m; cbn in *; subst; reflexivity.
Qed.

Lemma expand_matrices_shape (m : Tensor) (b r c : nat) :
  shape m = [b; r; c] ->
  exists m', expand m [Z.of_nat b; (-1)%Z; (-1)%Z] = inr m' /\ shape m' = [b; r; c].
Proof.
  intros Hs. unfold expand, ndimension. rewrite Hs.
  cbn -[expand_data expand_dim Z.of_nat].
  rewrite expand_dim_same, !expand_dim_keep. eexists. split; reflexivity.
Qed.

(** One 2x3 matrix expands to as many copies as the batch asks for. *)
Lemma expand_single_matrix (x1 x2 x3 x4 x5 x6 : Q) (dt : dtype) (dev : device) (b : nat) :
  expand (mkTensor [1; 2; 3] [x1; x2; x3; x4; x5; x6] dt dev) [Z.of_nat b; (-1)%Z; (-1)%Z] =
  ok (mkTensor [b; 2; 3] (concat (repeat [x1; x2; x3; x4; x5; x6] b)) dt dev).
Proof.
  unfold expand, ndimension.
  cbn -[expand_data expand_dim Z.of_nat].
  rewrite expand_dim_one, !expand_dim_keep. unfold ok. do 2 f_equal.
  cbn. destruct b as [| [| b]]; reflexivity.
Qed.

Lemma slice_translation_buffer_step (b : nat) (x y : Q) (d : list Q) :
  concat (map (fun mat => concat (map (firstn 3) (blocks 2 3 mat)))
              (blocks (S b) 9 (translation_matrices (x :: y :: d))))
  = [1%Q; 0%Q; x; 0%Q; 1%Q; y] ++
    concat (map (fun mat => concat (map (firstn 3) (blocks 2 3 mat)))
                (blocks b 9 (translation_matrices d))).
Proof. reflexivity. Qed.

Lemma slice_translation_buffer (b : nat) (d : list Q) :
  length d = 2 * b ->
  concat (map (fun mat => concat (map (firstn 3) (blocks 2 3 mat)))
              (blocks b 9 (translation_matrices d)))
  = translation_rows d.
Proof.
  revert d. induction b as [| b IH]; intros d Hd.
  - destruct d as [| x [| y d]]; cbn in Hd; try lia. reflexivity.
  - destruct d as [| x [| y d]]; cbn in Hd; try lia.
    rewrite slice_translation_buffer_step, IH by lia. reflexivity.
Qed.

Lemma slice_translation_matrices (b : nat) (d : list Q) (dt : dtype) (dev : device) :
  length d = 2 * b ->
  slice_2x3 (mkTensor [b; 3; 3] (translation_matrices d) dt dev) =
  ok (mkTensor [b; 2; 3] (translation_rows d) dt dev).
Proof.
  intros Hd. unfold slice_2x3.
  cbn [shape rev app data t_dtype t_device numel fold_right].
  change (Nat.min 2 3) with 2. change (Nat.min 3 3) with 3. change (3 * 3) with 9.
  rewrite Nat.mul_1_r, (slice_translation_buffer b d Hd). reflexivity.
Qed.

Lemma translate_reaches_affine warp (t tr : Tensor) (b : nat) :
  ndimension t = 3 \/ ndimension t = 4 ->
  shape tr = [b; 2] -> well_formed tr ->
  translate warp (PyTensor t) (PyTensor tr) = affine warp t (translation_affine tr).
Proof.
  intros Hrank Hs Hwf. apply not_in_3_4_false in Hrank.
  assert (Hlen : length (data tr) = 2 * b)
    by (unfold well_formed in Hwf; rewrite Hs in Hwf; cbn in Hwf; lia).
  unfold translate. cbn [is_tensor negb tensor_attr]. unfold ok.
  rewrite bind_lift_ok. fold (ndimension t). rewrite Hrank, bind_lift_ok.
  rewrite (compute_translation_matrix_eq tr b Hs Hwf). unfold ok. rewrite bind_lift_ok.
  rewrite (slice_translation_matrices b _ _ _ Hlen). unfold ok. rewrite bind_lift_ok.
  unfold translation_affine. rewrite Hs. reflexivity.
Qed.

Lemma affine_batched warp (t m m' : Tensor) (B C H W : nat) :
  shape t = [B; C; H; W] ->
  expand m [Z.of_nat B; (-1)%Z; (-1)%Z] = inr m' ->
  affine warp t m = ([CallWarp t m' [H; W]], delegated (warp t m' [H; W])).
Proof.
  intros Ht Hm. unfold affine, ndimension, shape0. rewrite Ht.
  cbn [length Nat.eqb]. rewrite Ht, bind_lift_ok, Hm, bind_lift_ok.
  unfold call_warp_affine. change (lastn 2 [B; C; H; W]) with [H; W].
  destruct (warp t m' [H; W]); reflexivity.
Qed.

Lemma affine_unbatched warp (t m m' : Tensor) (C H W : nat) :
  shape t = [C; H; W] ->
  expand m [Z.of_nat 1; (-1)%Z; (-1)%Z] = inr m' ->
  affine warp t m =
  ([CallWarp (unsqueeze0 t) m' [H; W]], squeezed (delegated (warp (unsqueeze0 t) m' [H; W]))).
Proof.
  intros Ht Hm. unfold affine, ndimension, shape0. rewrite Ht.
  cbn [length Nat.eqb unsqueeze0 shape]. rewrite bind_lift_ok, Hm, bind_lift_ok.
  unfold call_warp_affine. fold (unsqueeze0 t). rewrite Ht.
  change (lastn 2 [1; C; H; W]) with [H; W].
  destruct (warp (unsqueeze0 t) m' [H; W]); reflexivity.
Qed.

Lemma affine_unbatched_refuses warp (t m : Tensor) (n r c C H W : nat) :
  shape m = [n; r; c] -> n <> 1 -> shape t = [C; H; W] ->
  affine warp t m = ([], inl (Raise RuntimeError expand_msg (FShape [n; r; c]))).
Proof.
  intros Hm H1 Ht. unfold affine, ndimension, shape0. rewrite Ht.
  cbn [length Nat.eqb unsqueeze0 shape]. rewrite bind_lift_ok.
  rewrite (expand_batch_mismatch m 1 n r c Hm H1 H1), Hm. reflexivity.
Qed.

(** X11. On a batch of images [translate] makes one call, to the warp, with the
    images as they are, their own (H, W), and one matrix [[1, 0, dx],
    [0, 1, dy]] per image: from one translation per image, or from a single
    translation repeated for every image.  What the warp returns or raises is
    the result. *)
Theorem translate_hands_offsets_to_warp :
  forall warp (t : Tensor) (B C H W : nat),
    shape t = [B; C; H; W] ->
    (forall tr, shape tr = [B; 2] -> well_formed tr ->
       let m := mkTensor [B; 2; 3] (translation_rows (data tr)) (t_dtype tr) (t_device tr) in
       translate warp (PyTensor t) (PyTensor tr) =
       ([CallWarp t m [H; W]], delegated (warp t m [H; W]))) /\
    (forall dx dy dt dev,
       let m := mkTensor [B; 2; 3]
                  (concat (repeat [1%Q; 0%Q; dx; 0%Q; 1%Q; dy] B)) dt dev in
       translate warp (PyTensor t) (PyTensor (mkTensor [1; 2] [dx; dy] dt dev)) =
       ([CallWarp t m [H; W]], delegated (warp t m [H; W]))).
Proof.
  intros warp t B C H W Ht.
  assert (Hrank : ndimension t = 3 \/ ndimension t = 4)
    by (right; unfold ndimension; rewrite Ht; reflexivity).
  split.
  - intros tr Hs Hwf m.
    rewrite (translate_reaches_affine warp t tr B Hrank Hs Hwf).
    apply (affine_batched warp t _ m B C H W Ht).
    unfold translation_affine. rewrite Hs. cbn [hd]. fold m.
    apply (expand_matrices_same m B 2 3); [reflexivity |].
    unfold well_formed, m. cbn [data shape numel fold_right].
    rewrite (length_translation_rows B).
    + lia.
    + unfold well_formed in Hwf. rewrite Hs in Hwf. cbn in Hwf. lia.
  - intros dx dy dt dev m.
    rewrite (translate_reaches_affine warp t (mkTensor [1; 2] [dx; dy] dt dev) 1
               Hrank eq_refl eq_refl).
    apply (affine_batched warp t _ m B C H W Ht).
    apply expand_single_matrix.
Qed.

Lemma translate_hands_offsets_to_warp_witness :
  let t := ramp [2; 1; 2; 2] in
  let tr := mkTensor [2; 2] [1%Q; 0%Q; 0%Q; 1%Q] float32 cpu in
  let m := mkTensor [2; 2; 3]
             [1%Q; 0%Q; 1%Q; 0%Q; 1%Q; 0%Q; 1%Q; 0%Q; 0%Q; 0%Q; 1%Q; 1%Q] float32 cpu in
  translate nearest_warp_affine (PyTensor t) (PyTensor tr) =
  ([CallWarp t m [2; 2]], delegated (nearest_warp_affine t m [2; 2])) /\
  outcome (translate nearest_warp_affine (PyTensor t) (PyTensor tr)) =
  inr (mkTensor [2; 1; 2; 2] [0%Q; 1%Q; 0%Q; 3%Q; 0%Q; 0%Q; 5%Q; 6%Q] float32 cpu).
Proof.
  intros t tr m. split; [| vm_compute; reflexivity].
  apply (proj1 (translate_hands_offsets_to_warp nearest_warp_affine t 2 1 2 2 eq_refl) tr);
    reflexivity.
Defined.

(** X12. On an unbatched image [translate] takes a single translation: the warp is
    called with the image as a batch of one and the one matrix, and its result
    comes back without the batch dimension; with any other number of
    translations the matrices do not fit the batch of one and the warp is not
    called. *)
Theorem translate_on_unbatched_image :
  forall warp (t : Tensor) (C H W : nat),
    shape t = [C; H; W] ->
    (forall dx dy dt dev,
       let m := mkTensor [1; 2; 3] [1%Q; 0%Q; dx; 0%Q; 1%Q; dy] dt dev in
       translate warp (PyTensor t) (PyTensor (mkTensor [1; 2] [dx; dy] dt dev)) =
       ([CallWarp (unsqueeze0 t) m [H; W]],
        squeezed (delegated (warp (unsqueeze0 t) m [H; W])))) /\
    (forall tr B, shape tr = [B; 2] -> well_formed tr -> B <> 1 ->
       translate warp (PyTensor t) (PyTensor tr) =
       ([], inl (Raise RuntimeError expand_msg (FShape [B; 2; 3])))).
Proof.
  intros warp t C H W Ht.
  assert (Hrank : ndimension t = 3 \/ ndimension t = 4)
    by (left; unfold ndimension; rewrite Ht; reflexivity).
  split.
  - intros dx dy dt dev m.
    rewrite (translate_reaches_affine warp t (mkTensor [1; 2] [dx; dy] dt dev) 1
               Hrank eq_refl eq_refl).
    apply (affine_unbatched warp t _ m C H W Ht).
    apply (expand_single_matrix _ _ _ _ _ _ dt dev 1).
  - intros tr B Hs Hwf HB.
    rewrite (translate_reaches_affine warp t tr B Hrank Hs Hwf).
    apply (affine_unbatched_refuses warp t (translation_affine tr) B 2 3 C H W); try assumption.
    unfold translation_affine. rewrite Hs. reflexivity.
Qed.

Lemma translate_on_unbatched_image_witness :
  let t := ramp [1; 2; 2] in
  let pair := mkTensor [2; 2] [1%Q; 0%Q; 0%Q; 1%Q] float32 cpu in
  translate nearest_warp_affine (PyTensor t) (PyTensor pair) =
  ([], inl (Raise RuntimeError expand_msg (FShape [2; 2; 3]))) /\
  outcome (translate nearest_warp_affine (PyTensor t)
             (PyTensor (mkTensor [1; 2] [1%Q; 0%Q] float32 cpu))) =
  inr (mkTensor [1; 2; 2] [0%Q; 1%Q; 0%Q; 3%Q] float32 cpu).
Proof.
  intros t pair. split; [| vm_compute; reflexivity].
  apply (proj2 (translate_on_unbatched_image nearest_warp_affine t 1 2 2 eq_refl) pair 2).
  - reflexivity.
  - reflexivity.
  - discriminate.
Defined.

Lemma matrix_to_warp (rm : Tensor) (B rows cols : nat) :
  shape rm = [B; rows; cols] ->
  exists m m',
    slice_2x3 rm = inr m /\
    expand m [Z.of_nat B; (-1)%Z; (-1)%Z] = inr m' /\
    shape m' = [B; Nat.min 2 rows; Nat.min 3 cols].
Proof.
  intros Hs.
  assert (Hm : exists m, slice_2x3 rm = inr m /\ shape m = [B; Nat.min 2 rows; Nat.min 3 cols]).
  { unfold slice_2x3, ok. rewrite Hs. cbn -[Nat.min blocks]. eexists. split; reflexivity. }
  destruct Hm as (m & Hm & Hshape).
  destruct (expand_matrices_shape m _ _ _ Hshape) as (m' & He & Hs').
  exists m, m'. repeat split; assumption.
Qed.

(** X13. On a batch of images with no center given, [rotate] makes two calls: the
    rotation-matrix primitive gets, for every image, the center of the plane
    as the dtype of the images holds it, the angles expanded to the batch and
    unit scales; the warp gets the images
    as they are, the first two rows and three columns of every matrix the
    primitive returned, and the images' own (H, W).  What the warp returns or
    raises is the result; when the primitive fails, its failure is the result
    and the warp is not called. *)
Theorem rotate_on_batched_image :
  forall grm warp (t a a' : Tensor) (B C H W : nat),
    shape t = [B; C; H; W] ->
    plane_fits (t_dtype t) H W ->
    expand a [Z.of_nat B] = inr a' ->
    let centers := default_centers t B H W in
    let first := CallRotationMatrix centers a' (ones_like a') in
    (forall rm rows cols,
        grm centers a' (ones_like a') = inr rm -> shape rm = [B; rows; cols] ->
        exists m m',
          slice_2x3 rm = inr m /\
          expand m [Z.of_nat B; (-1)%Z; (-1)%Z] = inr m' /\
          shape m' = [B; Nat.min 2 rows; Nat.min 3 cols] /\
          rotate grm warp (PyTensor t) (PyTensor a) PyNone =
          ([first; CallWarp t m' [H; W]], delegated (warp t m' [H; W]))) /\
    (forall e,
        grm centers a' (ones_like a') = inl e ->
        rotate grm warp (PyTensor t) (PyTensor a) PyNone = ([first], inl (Delegated e))).
Proof.
  intros grm warp t a a' B C H W Ht _ Ha centers first.
  assert (Hc := compute_tensor_center_eq t [B; C] H W Ht).
  assert (H0 : shape0 t = inr B) by (unfold shape0; rewrite Ht; reflexivity).
  assert (Hhead : rotate grm warp (PyTensor t) (PyTensor a) PyNone =
                  (rotation_matrix <- _compute_rotation_matrix grm a' centers ;;
                   m <- lift (slice_2x3 rotation_matrix) ;;
                   affine warp t m)).
  { unfold rotate. cbn [is_tensor is_None negb andb tensor_attr]. unfold ok in *.
    rewrite bind_lift_ok. rewrite Ht. cbn [length not_in_3_4 Nat.eqb orb negb].
    rewrite Hc, !bind_lift_ok, bind_ret, bind_lift_ok.
    rewrite H0, bind_lift_ok, Ha, bind_lift_ok.
    cbn [tensor_attr]. unfold ok. rewrite !bind_lift_ok, expand_vector2. unfold ok.
    rewrite bind_lift_ok. reflexivity. }
  split.
  - intros rm rows cols Hrm Hshape.
    destruct (matrix_to_warp rm B rows cols Hshape) as (m & m' & Hm & He & Hs').
    exists m, m'. repeat split; try assumption.
    rewrite Hhead. unfold _compute_rotation_matrix, call_get_rotation_matrix2d.
    rewrite Hrm. cbn [delegated]. rewrite bind_emit_ok. cbn [ret fst snd app].
    rewrite bind_emit_ok, Hm, bind_lift_ok.
    rewrite (affine_batched warp t m m' B C H W Ht He). reflexivity.
  - intros e Hrm. rewrite Hhead.
    unfold _compute_rotation_matrix, call_get_rotation_matrix2d.
    rewrite Hrm. reflexivity.
Qed.

Lemma rotate_on_batched_image_witness :
  let t := ramp [2; 1; 3; 3] in
  let a := mkTensor [1] [90%Q] float32 cpu in
  let a' := mkTensor [2] [90%Q; 90%Q] float32 cpu in
  outcome (rotate right_angle_rotation_matrix2d nearest_warp_affine
             (PyTensor t) (PyTensor a) PyNone)
  = inr (mkTensor [2; 1; 3; 3]
           [3%Q; 6%Q; 9%Q; 2%Q; 5%Q; 8%Q; 1%Q; 4%Q; 7%Q;
            12%Q; 15%Q; 18%Q; 11%Q; 14%Q; 17%Q; 10%Q; 13%Q; 16%Q] float32 cpu) /\
  exists rm m m',
    right_angle_rotation_matrix2d (default_centers t 2 3 3) a' (ones_like a') = inr rm /\
    slice_2x3 rm = inr m /\
    expand m [Z.of_nat 2; (-1)%Z; (-1)%Z] = inr m' /\
    shape m' = [2; Nat.min 2 3; Nat.min 3 3] /\
    rotate right_angle_rotation_matrix2d nearest_warp_affine (PyTensor t) (PyTensor a) PyNone =
    ([CallRotationMatrix (default_centers t 2 3 3) a' (ones_like a'); CallWarp t m' [3; 3]],
     delegated (nearest_warp_affine t m' [3; 3])).
Proof.
  intros t a a'. split; [vm_compute; reflexivity |].
  destruct (right_angle_rotation_matrix2d (default_centers t 2 3 3) a' (ones_like a'))
    as [e | rm] eqn:Hrm; [vm_compute in Hrm; discriminate Hrm |].
  assert (Hshape : shape rm = [2; 3; 3])
    by (vm_compute in Hrm; injection Hrm as <-; reflexivity).
  assert (Hfits : plane_fits (t_dtype t) 3 3) by (split; vm_compute; reflexivity).
  destruct (proj1 (rotate_on_batched_image right_angle_rotation_matrix2d nearest_warp_affine
                     t a a' 2 1 3 3 eq_refl Hfits eq_refl) rm 3 3 Hrm Hshape)
    as (m & m' & H1 & H2 & H3 & H4).
  exists rm, m, m'. repeat split; assumption.
Defined.

(** X14. On a batch of images with no center given, [scale] makes the same two
    calls as [rotate]: the rotation-matrix primitive gets, for every image, the
    center of the plane as the dtype of the images holds it, zero angles and
    the scale factors expanded to the batch; the warp gets the images as they
    are, the first two rows and three columns of every matrix the primitive
    returned, and the images' own (H, W).  What the warp returns or raises is
    the result; when the primitive fails, its failure is the result and the
    warp is not called. *)
Theorem scale_on_batched_image :
  forall grm warp (t s s' : Tensor) (B C H W : nat),
    shape t = [B; C; H; W] ->
    plane_fits (t_dtype t) H W ->
    expand s [Z.of_nat B] = inr s' ->
    let centers := default_centers t B H W in
    let first := CallRotationMatrix centers (zeros_like s') s' in
    (forall sm rows cols,
        grm centers (zeros_like s') s' = inr sm -> shape sm = [B; rows; cols] ->
        exists m m',
          slice_2x3 sm = inr m /\
          expand m [Z.of_nat B; (-1)%Z; (-1)%Z] = inr m' /\
          shape m' = [B; Nat.min 2 rows; Nat.min 3 cols] /\
          scale grm warp (PyTensor t) (PyTensor s) PyNone =
          ([first; CallWarp t m' [H; W]], delegated (warp t m' [H; W]))) /\
    (forall e,
        grm centers (zeros_like s') s' = inl e ->
        scale grm warp (PyTensor t) (PyTensor s) PyNone = ([first], inl (Delegated e))).
Proof.
  intros grm warp t s s' B C H W Ht _ Hs centers first.
  assert (Hc := compute_tensor_center_eq t [B; C] H W Ht).
  assert (H0 : shape0 t = inr B) by (unfold shape0; rewrite Ht; reflexivity).
  assert (Hhead : scale grm warp (PyTensor t) (PyTensor s) PyNone =
                  (scaling_matrix <- _compute_scaling_matrix grm s' centers ;;
                   m <- lift (slice_2x3 scaling_matrix) ;;
                   affine warp t m)).
  { unfold scale. cbn [is_tensor is_None negb andb tensor_attr]. unfold ok in *.
    rewrite bind_lift_ok.
    rewrite Hc, !bind_lift_ok, bind_ret.
    cbn [tensor_attr]. unfold ok. rewrite bind_lift_ok.
    rewrite H0, bind_lift_ok, expand_vector2. unfold ok.
    rewrite !bind_lift_ok, Hs, bind_lift_ok. reflexivity. }
  split.
  - intros sm rows cols Hsm Hshape.
    destruct (matrix_to_warp sm B rows cols Hshape) as (m & m' & Hm & He & Hs').
    exists m, m'. repeat split; try assumption.
    rewrite Hhead. unfold _compute_scaling_matrix, call_get_rotation_matrix2d.
    rewrite Hsm. cbn [delegated]. rewrite bind_emit_ok. cbn [ret fst snd app].
    rewrite bind_emit_ok, Hm, bind_lift_ok.
    rewrite (affine_batched warp t m m' B C H W Ht He). reflexivity.
  - intros e Hsm. rewrite Hhead.
    unfold _compute_scaling_matrix, call_get_rotation_matrix2d.
    rewrite Hsm. reflexivity.
Qed.

Lemma scale_on_batched_image_witness :
  let t := ramp [2; 1; 3; 3] in
  let s := mkTensor [1] [2%Q] float32 cpu in
  let s' := mkTensor [2] [2%Q; 2%Q] float32 cpu in
  outcome (scale right_angle_rotation_matrix2d nearest_warp_affine
             (PyTensor t) (PyTensor s) PyNone)
  = inr (mkTensor [2; 1; 3; 3]
           [5%Q; 5%Q; 6%Q; 5%Q; 5%Q; 6%Q; 8%Q; 8%Q; 9%Q;
            14%Q; 14%Q; 15%Q; 14%Q; 14%Q; 15%Q; 17%Q; 17%Q; 18%Q] float32 cpu) /\
  exists sm m m',
    right_angle_rotation_matrix2d (default_centers t 2 3 3) (zeros_like s') s' = inr sm /\
    slice_2x3 sm = inr m /\
    expand m [Z.of_nat 2; (-1)%Z; (-1)%Z] = inr m' /\
    shape m' = [2; Nat.min 2 3; Nat.min 3 3] /\
    scale right_angle_rotation_matrix2d nearest_warp_affine (PyTensor t) (PyTensor s) PyNone =
    ([CallRotationMatrix (default_centers t 2 3 3) (zeros_like s') s'; CallWarp t m' [3; 3]],
     delegated (nearest_warp_affine t m' [3; 3])).
Proof.
  intros t s s'. split; [vm_compute; reflexivity |].
  destruct (right_angle_rotation_matrix2d (default_centers t 2 3 3) (zeros_like s') s')
    as [e | sm] eqn:Hsm; [vm_compute in Hsm; discriminate Hsm |].
  assert (Hshape : shape sm = [2; 3; 3])
    by (vm_compute in Hsm; injection Hsm as <-; reflexivity).
  assert (Hfits : plane_fits (t_dtype t) 3 3) by (split; vm_compute; reflexivity).
  destruct (proj1 (scale_on_batched_image right_angle_rotation_matrix2d nearest_warp_affine
                     t s s' 2 1 3 3 eq_refl Hfits eq_refl) sm 3 3 Hsm Hshape)
    as (m & m' & H1 & H2 & H3 & H4).
  exists sm, m, m'. repeat split; assumption.
Defined.

Lemma expand_vector_mismatch (a : Tensor) (b n : nat) :
  shape a = [n] -> n <> b -> n <> 1 ->
  expand a [Z.of_nat b] = inl (Raise RuntimeError expand_msg (FShape [n])).
Proof.
  intros Hs Hb H1. unfold expand, ndimension, throw. rewrite Hs.
  cbn -[expand_data expand_dim Z.of_nat].
  assert (Hd : expand_dim n (Z.of_nat b) = None).
  { unfold expand_dim.
    destruct (Z.eqb_spec (Z.of_nat b) (-1)); [lia |].
    destruct (Z.ltb_spec (Z.of_nat b) 0); [lia |].
    rewrite Nat2Z.id.
    destruct (Nat.eqb_spec b n); [congruence |].
    destruct (Nat.eqb_spec n 1); [contradiction | reflexivity]. }
  rewrite Hd. reflexivity.
Qed.

(** X15. The angles of [rotate] and the scale factors of [scale] are one for all
    the images or one per image.  A vector of angles of any other length is
    refused by [expand] whatever the center is, before either collaborator is
    called.  A vector of scale factors of any other length is refused in the
    same way when the center is left out or is a tensor that expands to the
    batch; [scale] expands the center first, so a center that does not expand,
    or is not a tensor, fails before the scale factor is looked at. *)
Theorem angles_must_fit_the_batch :
  forall grm warp (t a : Tensor) (B C H W n : nat),
    shape t = [B; C; H; W] ->
    shape a = [n] -> n <> 1 -> n <> B ->
    (forall center : pyobj,
        rotate grm warp (PyTensor t) (PyTensor a) center
        = ([], inl (Raise RuntimeError expand_msg (FShape [n])))) /\
    scale grm warp (PyTensor t) (PyTensor a) PyNone
    = ([], inl (Raise RuntimeError expand_msg (FShape [n]))) /\
    (forall c c' : Tensor,
        expand c [Z.of_nat B; (-1)%Z] = inr c' ->
        scale grm warp (PyTensor t) (PyTensor a) (PyTensor c)
        = ([], inl (Raise RuntimeError expand_msg (FShape [n])))) /\
    (forall (c : Tensor) (e : exn),
        expand c [Z.of_nat B; (-1)%Z] = inl e ->
        scale grm warp (PyTensor t) (PyTensor a) (PyTensor c) = ([], inl e)) /\
    (forall center : pyobj,
        is_None center = false -> is_tensor center = false ->
        scale grm warp (PyTensor t) (PyTensor a) center
        = ([], inl (Raise AttributeError "'{}' object has no attribute '{}'"
                      (FAttr (type center) "expand")))).
Proof.
  intros grm warp t a B C H W n Ht Ha H1 HB.
  assert (Hc := compute_tensor_center_eq t [B; C] H W Ht).
  assert (H0 : shape0 t = inr B) by (unfold shape0; rewrite Ht; reflexivity).
  pose proof (expand_vector_mismatch a B n Ha HB H1) as He.
  split; [| split; [| split; [| split]]].
  - intros center. unfold rotate. cbn [is_tensor negb andb tensor_attr]. unfold ok in *.
    rewrite andb_false_r, bind_lift_ok. rewrite Ht. cbn [length not_in_3_4 Nat.eqb orb negb].
    destruct (is_None center).
    + rewrite Hc, !bind_lift_ok, bind_ret, bind_lift_ok.
      rewrite H0, bind_lift_ok, He. reflexivity.
    + rewrite bind_ret, bind_lift_ok.
      rewrite H0, bind_lift_ok, He. reflexivity.
  - unfold scale. cbn [is_tensor is_None negb andb tensor_attr]. unfold ok in *.
    rewrite bind_lift_ok.
    rewrite Hc, !bind_lift_ok, bind_ret.
    cbn [tensor_attr]. unfold ok. rewrite bind_lift_ok.
    rewrite H0, bind_lift_ok, expand_vector2. unfold ok.
    rewrite !bind_lift_ok, He. reflexivity.
  - intros c c' Hexp. unfold scale. cbn [is_tensor is_None negb andb tensor_attr].
    unfold ok in *. rewrite bind_lift_ok, bind_ret.
    cbn [tensor_attr]. unfold ok. rewrite bind_lift_ok.
    rewrite H0, bind_lift_ok, Hexp.
    rewrite !bind_lift_ok, He. reflexivity.
  - intros c e Hexp. unfold scale. cbn [is_tensor is_None negb andb tensor_attr].
    unfold ok in *. rewrite bind_lift_ok, bind_ret.
    cbn [tensor_attr]. unfold ok. rewrite bind_lift_ok.
    rewrite H0, bind_lift_ok, Hexp. reflexivity.
  - intros center Hnone Htensor. unfold scale. cbn [is_tensor negb andb tensor_attr].
    unfold ok in *. rewrite bind_lift_ok, Hnone, bind_ret.
    destruct center; try discriminate; reflexivity.
Qed.

Lemma angles_must_fit_the_batch_witness :
  let t := ramp [3; 1; 2; 2] in
  let a := mkTensor [2] [0%Q; 90%Q] float32 cpu in
  let corner := mkTensor [2] [0%Q; 0%Q] float32 cpu in
  let corners := mkTensor [5; 2] (repeat 0%Q 10) float32 cpu in
  rotate right_angle_rotation_matrix2d nearest_warp_affine
    (PyTensor t) (PyTensor a) (PyStr "middle")
  = ([], inl (Raise RuntimeError expand_msg (FShape [2]))) /\
  scale right_angle_rotation_matrix2d nearest_warp_affine (PyTensor t) (PyTensor a) PyNone
  = ([], inl (Raise RuntimeError expand_msg (FShape [2]))) /\
  scale right_angle_rotation_matrix2d nearest_warp_affine
    (PyTensor t) (PyTensor a) (PyTensor corner)
  = ([], inl (Raise RuntimeError expand_msg (FShape [2]))) /\
  scale right_angle_rotation_matrix2d nearest_warp_affine
    (PyTensor t) (PyTensor a) (PyTensor corners)
  = ([], inl (Raise RuntimeError expand_msg (FShape [5; 2]))) /\
  scale right_angle_rotation_matrix2d nearest_warp_affine
    (PyTensor t) (PyTensor a) (PyStr "middle")
  = ([], inl (Raise AttributeError "'{}' object has no attribute '{}'"
                (FAttr str_t "expand"))).
Proof.
  intros t a corner corners.
  assert (H21 : 2 <> 1) by discriminate.
  assert (H23 : 2 <> 3) by discriminate.
  pose proof (angles_must_fit_the_batch right_angle_rotation_matrix2d nearest_warp_affine
                t a 3 1 2 2 2 eq_refl eq_refl H21 H23)
    as (Hrotate & Hnone & Hfits & Hfails & Hother).
  split; [apply Hrotate |].
  split; [exact Hnone |].
  split; [apply (Hfits corner (mkTensor [3; 2] (repeat 0%Q 6) float32 cpu)); reflexivity |].
  split; [apply Hfails; reflexivity |].
  apply Hother; reflexivity.
Defined.

(** X16. An unbatched image with a single channel does go through [rotate]: its
    one channel is taken for a batch of one, so one matrix is built, the warp
    gets the image as a batch of one, and its result comes back without the
    batch dimension. *)
Theorem rotate_on_single_channel_image :
  forall grm warp (t a a' rm : Tensor) (H W rows cols : nat),
    shape t = [1; H; W] ->
    expand a [Z.of_nat 1] = inr a' ->
    let centers := default_centers t 1 H W in
    grm centers a' (ones_like a') = inr rm ->
    shape rm = [1; rows; cols] ->
    exists m m',
      slice_2x3 rm = inr m /\
      expand m [Z.of_nat 1; (-1)%Z; (-1)%Z] = inr m' /\
      shape m' = [1; Nat.min 2 rows; Nat.min 3 cols] /\
      rotate grm warp (PyTensor t) (PyTensor a) PyNone =
      ([CallRotationMatrix centers a' (ones_like a'); CallWarp (unsqueeze0 t) m' [H; W]],
       squeezed (delegated (warp (unsqueeze0 t) m' [H; W]))).
Proof.
  intros grm warp t a a' rm H W rows cols Ht Ha centers Hrm Hshape.
  assert (Hc := compute_tensor_center_eq t [1] H W Ht).
  assert (H0 : shape0 t = inr 1) by (unfold shape0; rewrite Ht; reflexivity).
  destruct (matrix_to_warp rm 1 rows cols Hshape) as (m & m' & Hm & He & Hs').
  exists m, m'. repeat split; try assumption.
  assert (Hhead : rotate grm warp (PyTensor t) (PyTensor a) PyNone =
                  (rotation_matrix <- _compute_rotation_matrix grm a' centers ;;
                   m <- lift (slice_2x3 rotation_matrix) ;;
                   affine warp t m)).
  { unfold rotate. cbn [is_tensor is_None negb andb tensor_attr]. unfold ok in *.
    rewrite bind_lift_ok. rewrite Ht. cbn [length not_in_3_4 Nat.eqb orb negb].
    rewrite Hc, !bind_lift_ok, bind_ret, bind_lift_ok.
    rewrite H0, bind_lift_ok, Ha, bind_lift_ok.
    cbn [tensor_attr]. unfold ok. rewrite !bind_lift_ok, expand_vector2. unfold ok.
    rewrite bind_lift_ok. reflexivity. }
  rewrite Hhead. unfold _compute_rotation_matrix, call_get_rotation_matrix2d.
  rewrite Hrm. cbn [delegated]. rewrite bind_emit_ok. cbn [ret fst snd app].
  rewrite bind_emit_ok, Hm, bind_lift_ok.
  rewrite (affine_unbatched warp t m m' 1 H W Ht He). reflexivity.
Qed.

Lemma rotate_on_single_channel_image_witness :
  let t := ramp [1; 3; 3] in
  let a := mkTensor [1] [90%Q] float32 cpu in
  outcome (rotate right_angle_rotation_matrix2d nearest_warp_affine
             (PyTensor t) (PyTensor a) PyNone)
  = inr (mkTensor [1; 3; 3] [3%Q; 6%Q; 9%Q; 2%Q; 5%Q; 8%Q; 1%Q; 4%Q; 7%Q] float32 cpu) /\
  exists rm m m',
    right_angle_rotation_matrix2d (default_centers t 1 3 3) a (ones_like a) = inr rm /\
    slice_2x3 rm = inr m /\
    expand m [Z.of_nat 1; (-1)%Z; (-1)%Z] = inr m' /\
    shape m' = [1; Nat.min 2 3; Nat.min 3 3] /\
    rotate right_angle_rotation_matrix2d nearest_warp_affine (PyTensor t) (PyTensor a) PyNone =
    ([CallRotationMatrix (default_centers t 1 3 3) a (ones_like a);
      CallWarp (unsqueeze0 t) m' [3; 3]],
     squeezed (delegated (nearest_warp_affine (unsqueeze0 t) m' [3; 3]))).
Proof.
  intros t a. split; [vm_compute; reflexivity |].
  destruct (right_angle_rotation_matrix2d (default_centers t 1 3 3) a (ones_like a))
    as [e | rm] eqn:Hrm; [vm_compute in Hrm; discriminate Hrm |].
  assert (Hshape : shape rm = [1; 3; 3])
    by (vm_compute in Hrm; injection Hrm as <-; reflexivity).
  destruct (rotate_on_single_channel_image right_angle_rotation_matrix2d nearest_warp_affine
              t a a rm 3 3 3 3 eq_refl eq_refl Hrm Hshape)
    as (m & m' & H1 & H2 & H3 & H4).
  exists rm, m, m'. repeat split; assumption.
Defined.
